(** * CHARIS personality (g2cam): header tables, header assembly, query
      server, life cycle and command dispatch

    A shallow embedding of [cams/CHARIS.py].  Python values are a tagged
    union, dictionaries are finite maps, exceptions are an error type
    threaded through a result monad, and binary64 arithmetic is Rocq's
    primitive [float].  Calls into libraries outside the repository
    (astropy.io.fits, datetime, SocketServer, the g2cam OCS delegate) are
    modelled by the small interfaces declared below; [logger] calls carry no
    data flow and are kept only where a property speaks of them. *)

From Stdlib Require Import ZArith List String Ascii Bool Lia.
From Stdlib Require Import PrimFloat FloatOps SpecFloat.
From stdpp Require Import base option list gmap strings pretty.

Local Open Scope string_scope.
Local Open Scope list_scope.
Local Open Scope Z_scope.

(** ** Python values, exceptions and results *)

Module Py.

Inductive pyval :=
| VNone
| VBool (b : bool)
| VInt (z : Z)
| VFloat (f : float)
| VStr (s : string).

(** The exception classes the modelled code can raise.  [CHARISError] is
    declared in the source as a subclass of [CamCommandError]; the others
    are Python built-ins. *)
Inductive exn :=
| IOError
| ValueError
| IndexError
| KeyError (key : string)
| UnboundLocalError
| TypeError
| AttributeError
| OverflowError
| CamCommandError (msg : string)
| CHARISError (msg : string).

Definition is_CamCommandError (e : exn) : bool :=
  match e with
  | CamCommandError _ | CHARISError _ => true
  | _ => false
  end.

Definition is_CHARISError (e : exn) : bool :=
  match e with
  | CHARISError _ => true
  | _ => false
  end.

Inductive result (A : Type) :=
| Ok (a : A)
| Raise (e : exn).
Arguments Ok {A} a.
Arguments Raise {A} e.

Definition bind {A B} (r : result A) (k : A -> result B) : result B :=
  match r with
  | Ok a => k a
  | Raise e => Raise e
  end.

Definition is_ok {A} (r : result A) : bool :=
  match r with
  | Ok _ => true
  | Raise _ => false
  end.

(** ** Strings *)

(** [string.whitespace] of Python 2: space, TAB, LF, VT, FF, CR. *)
Definition is_space (c : ascii) : bool :=
  let n := nat_of_ascii c in
  (n =? 32)%nat || ((9 <=? n)%nat && (n <=? 13)%nat).

Definition is_digit (c : ascii) : bool :=
  let n := nat_of_ascii c in (48 <=? n)%nat && (n <=? 57)%nat.

Definition digit_val (c : ascii) : Z := Z.of_nat (nat_of_ascii c) - 48.

Definition cons_head (c : ascii) (l : list string) : list string :=
  match l with
  | w :: ws => String c w :: ws
  | [] => [String c EmptyString]
  end.

(** [s.split(sep)] for a one-character separator: every occurrence cuts,
    empty pieces are kept. *)
Fixpoint split_on (sep : ascii) (s : string) : list string :=
  match s with
  | EmptyString => [EmptyString]
  | String c r =>
      if Ascii.eqb c sep then EmptyString :: split_on sep r
      else cons_head c (split_on sep r)
  end.

(** [s.split()] without argument: cut at runs of whitespace, no empty
    pieces. *)
Fixpoint split_ws_aux (s : string) (cur : option string) : list string :=
  match s with
  | EmptyString =>
      match cur with
      | Some w => [w]
      | None => []
      end
  | String c r =>
      if is_space c then
        match cur with
        | Some w => w :: split_ws_aux r None
        | None => split_ws_aux r None
        end
      else
        split_ws_aux r (Some (match cur with
                              | Some w => w +:+ String c EmptyString
                              | None => String c EmptyString
                              end))
  end.

Definition split_ws (s : string) : list string := split_ws_aux s None.

Fixpoint lstrip (s : string) : string :=
  match s with
  | String c r => if is_space c then lstrip r else s
  | EmptyString => EmptyString
  end.

Fixpoint rstrip (s : string) : string :=
  match s with
  | EmptyString => EmptyString
  | String c r =>
      match rstrip r with
      | EmptyString => if is_space c then EmptyString else String c EmptyString
      | r' => String c r'
      end
  end.

Definition strip (s : string) : string := rstrip (lstrip s).

(** [s.find(c) != -1] *)
Fixpoint contains (c : ascii) (s : string) : bool :=
  match s with
  | EmptyString => false
  | String d r => Ascii.eqb d c || contains c r
  end.

Definition startswith (c : ascii) (s : string) : bool :=
  match s with
  | String d _ => Ascii.eqb d c
  | EmptyString => false
  end.

(** [s[:-1]] *)
Fixpoint drop_last (s : string) : string :=
  match s with
  | EmptyString => EmptyString
  | String c EmptyString => EmptyString
  | String c r => String c (drop_last r)
  end.

Definition upper_ascii (c : ascii) : ascii :=
  let n := nat_of_ascii c in
  if (97 <=? n)%nat && (n <=? 122)%nat then ascii_of_nat (n - 32) else c.

Fixpoint upper (s : string) : string :=
  match s with
  | EmptyString => EmptyString
  | String c r => String (upper_ascii c) (upper r)
  end.

Fixpoint join (sep : string) (l : list string) : string :=
  match l with
  | [] => EmptyString
  | [w] => w
  | w :: ws => w +:+ sep +:+ join sep ws
  end.

(** ** [float()] and [long()]

    Python 2.7 converts a decimal string to the nearest binary64 (ties to
    even).  The literal is read into a sign, an integer mantissa and a
    power of ten; the rounding is done once, by [SpecFloat], on the exact
    quotient. *)

Fixpoint take_digits (s : string) (acc : Z) (n : nat) : Z * nat * string :=
  match s with
  | String c r =>
      if is_digit c then take_digits r (10 * acc + digit_val c) (S n)
      else (acc, n, s)
  | EmptyString => (acc, n, EmptyString)
  end.

Definition take_sign (s : string) : bool * string :=
  match s with
  | String "-" r => (true, r)
  | String "+" r => (false, r)
  | _ => (false, s)
  end.

(** Exponent part: nothing, or [e]/[E], an optional sign and at least one
    digit, up to the end of the string. *)
Definition parse_exponent (s : string) : option Z :=
  match s with
  | EmptyString => Some 0
  | String c r =>
      if Ascii.eqb c "e" || Ascii.eqb c "E" then
        let '(neg, r1) := take_sign r in
        match take_digits r1 0 0 with
        | (_, O, _) => None
        | (e, _, EmptyString) => Some (if neg then - e else e)
        | _ => None
        end
      else None
  end.

(** Unsigned decimal: digits, an optional point with digits (one digit at
    least overall), an optional exponent.  Result: mantissa and power of
    ten. *)
Definition parse_decimal (s : string) : option (Z * Z) :=
  let '(ip, ni, r1) := take_digits s 0 0 in
  let '(m, nf, r2) :=
    match r1 with
    | String "." r => take_digits r ip 0
    | _ => (ip, O, r1)
    end in
  match (ni + nf)%nat with
  | O => None
  | _ =>
      match parse_exponent r2 with
      | Some e => Some (m, e - Z.of_nat nf)
      | None => None
      end
  end.

(** Nearest binary64 of [m * 10^e], [m >= 0]. *)
Definition decimal_to_float (neg : bool) (m e : Z) : float :=
  match m with
  | Zpos p =>
      if 0 <=? e then
        SF2Prim (binary_normalize prec emax
                   (if neg then - (m * 10 ^ e) else m * 10 ^ e) 0 false)
      else
        match 10 ^ (- e) with
        | Zpos q =>
            SF2Prim (SFdiv prec emax (S754_finite neg p 0) (S754_finite false q 0))
        | _ => nan
        end
  | _ => if neg then neg_zero else zero
  end.

Definition float_of_string (s : string) : option float :=
  let '(neg, r) := take_sign (strip s) in
  let u := upper r in
  if String.eqb u "INF" || String.eqb u "INFINITY" then
    Some (if neg then neg_infinity else infinity)
  else if String.eqb u "NAN" then Some nan
  else
    match parse_decimal r with
    | Some (m, e) => Some (decimal_to_float neg m e)
    | None => None
    end.

(** [long(s)] on a token without inner white space: optional sign, digits,
    optional trailing [L]. *)
Definition long_of_string (s : string) : option Z :=
  let '(neg, r) := take_sign (strip s) in
  match take_digits r 0 0 with
  | (_, O, _) => None
  | (z, _, rest) =>
      if String.eqb rest "" || String.eqb rest "L" || String.eqb rest "l"
      then Some (if neg then - z else z)
      else None
  end.

Definition float_of_Z (z : Z) : float :=
  SF2Prim (binary_normalize prec emax z 0 false).

(** [float(x)] on a Python value. *)
Definition py_float (v : pyval) : result float :=
  match v with
  | VFloat f => Ok f
  | VInt z => Ok (float_of_Z z)
  | VBool b => Ok (if b then one else zero)
  | VStr s =>
      match float_of_string s with
      | Some f => Ok f
      | None => Raise ValueError
      end
  | VNone => Raise TypeError
  end.

End Py.
Export Py.

Notation "x <- r ;; k" := (bind r (fun x => k))
  (at level 100, r at next level, right associativity).

(** ** FITS headers

    Modelled from astropy.io.fits (imported by the source as [pyfits]): a
    header is an ordered list of cards.  Keywords are matched in upper
    case.  Setting an ordinary keyword that is present replaces the value
    and the comment of its first card in place; a new ordinary card goes
    before the commentary cards that end the header; a commentary card
    ([COMMENT], [HISTORY], blank) is always added, after the last card of
    its kind or at the bottom.  The syntax checks astropy makes on keywords
    and values, and the splitting of long commentary text, are left out. *)

Module Fits.

Record card := Card { keyword : string; value : pyval; comment : string }.

Abbreviation Header := (list card).

Definition is_commentary (k : string) : bool :=
  String.eqb k "" || String.eqb k "COMMENT" || String.eqb k "HISTORY"
  || String.eqb k "END".

Definition has_key (k : string) (h : Header) : bool :=
  existsb (fun c => String.eqb (keyword c) k) h.



Fixpoint update_first (k : string) (v : pyval) (cm : option string)
    (h : Header) : Header :=
  match h with
  | [] => []
  | c :: r =>
      if String.eqb (keyword c) k
      then Card k v (match cm with Some s => s | None => comment c end) :: r
      else c :: update_first k v cm r
  end.

(** [Header.append(card)]: the card is placed before the run of commentary
    cards at the end of the header. *)
Fixpoint append_card (c : card) (h : Header) : Header :=
  match h with
  | [] => [c]
  | x :: r =>
      if forallb (fun y => is_commentary (keyword y)) h then c :: h
      else x :: append_card c r
  end.

Fixpoint insert_after_last (k : string) (c : card) (h : Header) : Header :=
  match h with
  | [] => [c]
  | x :: r =>
      if has_key k r then x :: insert_after_last k c r else x :: c :: r
  end.

Definition default_comment (cm : option string) : string :=
  match cm with
  | Some s => s
  | None => ""
  end.

Definition hdr_update (k : string) (v : pyval) (cm : option string)
    (h : Header) : Header :=
  let K := upper k in
  if is_commentary K then
    if has_key K h then insert_after_last K (Card K v (default_comment cm)) h
    else h ++ [Card K v (default_comment cm)]
  else if has_key K h then update_first K v cm h
  else append_card (Card K v (default_comment cm)) h.

(** [hdr.set(k, v, comment)] *)
Definition hdr_set (k : string) (v : pyval) (cm : string) (h : Header) : Header :=
  hdr_update k v (Some cm) h.

(** [hdr[k] = v] *)
Definition hdr_setitem (k : string) (v : pyval) (h : Header) : Header :=
  hdr_update k v None h.


(** The serialised form put on the wire by [hdr.tostring()]; the encoding
    itself is astropy's and stays uninterpreted. *)
Inductive wire := tostring (h : Header).

End Fits.
Export Fits.

(** ** Dates and times

    The operations of [datetime] and [astropy.time] that the header builder
    calls.  Each may raise (out-of-range dates, non-finite durations), so
    each returns a result. *)

Class TimeOps := {
  datetime : Type;
  (** [d + timedelta(seconds=s)] *)
  add_seconds : datetime -> float -> result datetime;
  (** [d - timedelta(hours=n)] *)
  sub_hours : datetime -> Z -> result datetime;
  (** [d.strftime('%Y-%m-%d')] *)
  strftime_date : datetime -> result string;
  (** [d.strftime('%H:%M:%S.%f')] *)
  strftime_time : datetime -> result string;
  (** [Time(d, scale='utc').mjd] *)
  mjd : datetime -> result float
}.

(** ** The CHARIS personality *)

Module CHARIS.

(** *** Header definition tables ([read_header_list], [init_stat_dict]) *)

(** One row of the table; the source keeps it as the 5-tuple produced by
    [zip]. *)
Record entry := Entry {
  StatAlias : string;
  FitsKey : string;
  FitsType : string;
  FitsDefault : pyval;
  FitsComment : string
}.

(** Iterating over an open file yields its lines, each with its newline. *)
Fixpoint file_lines (s : string) : list string :=
  match s with
  | EmptyString => []
  | String c r =>
      if Ascii.eqb c "010" then String c EmptyString :: file_lines r
      else cons_head c (file_lines r)
  end.

(** The separator class of the pattern [[\s!\n\t]+]. *)
Definition is_sep (c : ascii) : bool := is_space c || Ascii.eqb c "!".

(** [re.split('[\s!\n\t]+', s)]: the pieces between maximal runs of
    separators; a run at either end leaves an empty piece there. *)
Fixpoint re_split_aux (in_run : bool) (s : string) : list string :=
  match s with
  | EmptyString => [EmptyString]
  | String c r =>
      if is_sep c then
        if in_run then re_split_aux true r
        else EmptyString :: re_split_aux true r
      else cons_head c (re_split_aux false r)
  end.

Definition re_split (s : string) : list string := re_split_aux false s.

Definition index (param : list string) (i : nat) : result string :=
  match nth_error param i with
  | Some s => Ok s
  | None => Raise IndexError
  end.

Definition py_long (s : string) : result Z :=
  match long_of_string s with
  | Some z => Ok z
  | None => Raise ValueError
  end.

(** The default of a row.  A type other than [string], [float] or [int]
    assigns nothing: [FitsDefault] keeps the value of the previous row, or is
    unbound on the first one. *)
Definition coerce_default (FitsType : string) (param : list string)
    (prev : option pyval) : result (option pyval) :=
  if String.eqb FitsType "string" then
    p <- index param 3 ;; Ok (Some (VStr p))
  else if String.eqb FitsType "float" then
    p <- index param 3 ;; f <- py_float (VStr p) ;; Ok (Some (VFloat f))
  else if String.eqb FitsType "int" then
    p <- index param 3 ;; z <- py_long p ;; Ok (Some (VInt z))
  else Ok prev.

(** The body of the loop for one line that is not a comment. *)
Definition read_line (line : string) (prev : option pyval)
    : result (entry * option pyval) :=
  let param := re_split (drop_last line) in
  alias <- index param 0 ;;
  key <- index param 1 ;;
  type <- index param 2 ;;
  dflt <- coerce_default type param prev ;;
  let FitsComment := join " " (skipn 4 param) in
  match dflt with
  | Some d => Ok (Entry alias key type d FitsComment, dflt)
  | None => Raise UnboundLocalError
  end.

Fixpoint read_lines (lines : list string) (prev : option pyval)
    : result (list entry) :=
  match lines with
  | [] => Ok []
  | line :: rest =>
      if startswith "#" line then read_lines rest prev
      else
        r <- read_line line prev ;;
        header <- read_lines rest (snd r) ;;
        Ok (fst r :: header)
  end.

(** [open] is a lookup in the file system: the text of the file, or nothing
    when it cannot be opened. *)
Definition read_header_list (open : string -> option string) (inlist : string)
    : result (list entry) :=
  match open inlist with
  | None => Raise (CHARISError ("cannot open " +:+ inlist))
  | Some text => read_lines (file_lines text) None
  end.

Definition init_stat_dict (header : list entry) : gmap string pyval :=
  fold_left
    (fun statusDict e =>
       if negb (String.eqb (StatAlias e) "NA")
       then <[StatAlias e := FitsDefault e]> statusDict
       else statusDict)
    header ∅.

(** *** The instance *)

Record self := Self {
  mode : pyval;
  tel_header : list entry;
  statusDictTel : gmap string pyval;
  ao_header : list entry;
  statusDictAO : gmap string pyval;
  ao_stat : Z;
  (** handles to the periodic tasks: indices into the task pool *)
  status_task : option nat;
  power_task : option nat
}.

Definition set_statusDictTel (d : gmap string pyval) (s : self) : self :=
  Self (mode s) (tel_header s) d (ao_header s) (statusDictAO s) (ao_stat s)
       (status_task s) (power_task s).

Definition set_statusDictAO (d : gmap string pyval) (s : self) : self :=
  Self (mode s) (tel_header s) (statusDictTel s) (ao_header s) d (ao_stat s)
       (status_task s) (power_task s).

Definition set_status_task (t : option nat) (s : self) : self :=
  Self (mode s) (tel_header s) (statusDictTel s) (ao_header s)
       (statusDictAO s) (ao_stat s) t (power_task s).

Definition set_power_task (t : option nat) (s : self) : self :=
  Self (mode s) (tel_header s) (statusDictTel s) (ao_header s)
       (statusDictAO s) (ao_stat s) (status_task s) t.

Definition set_mode (m : pyval) (s : self) : self :=
  Self m (tel_header s) (statusDictTel s) (ao_header s)
       (statusDictAO s) (ao_stat s) (status_task s) (power_task s).

(** *** Header assembly ([fetch_header]) *)

(** [d[k]] on a status dictionary. *)
Definition getitem (d : gmap string pyval) (k : string) : result pyval :=
  match d !! k with
  | Some v => Ok v
  | None => Raise (KeyError k)
  end.

(** [v.split(":")]: only strings have the method. *)
Definition py_split (v : pyval) : result (list string) :=
  match v with
  | VStr s => Ok (split_on ":" s)
  | _ => Raise AttributeError
  end.

Definition float_at (param : list string) (i : nat) : result float :=
  p <- index param i ;; py_float (VStr p).

(** Lines 463-472: right ascension and declination in degrees. *)
Definition radec_deg (statusDictTel : gmap string pyval) : result (float * float) :=
  ra <- getitem statusDictTel "FITS.SBR.RA" ;;
  dec <- getitem statusDictTel "FITS.SBR.DEC" ;;
  ra_param <- py_split ra ;;
  h <- float_at ra_param 0 ;;
  m <- float_at ra_param 1 ;;
  s <- float_at ra_param 2 ;;
  let ra_deg := (15 * (h + m / 60 + s / 3600))%float in
  dec_param <- py_split dec ;;
  d0 <- index dec_param 0 ;;
  if negb (contains "-" d0) then
    d <- float_at dec_param 0 ;;
    dm <- float_at dec_param 1 ;;
    ds <- float_at dec_param 2 ;;
    Ok (ra_deg, (d + dm / 60 + ds / 3600)%float)
  else
    d <- float_at dec_param 0 ;;
    dm <- float_at dec_param 1 ;;
    ds <- float_at dec_param 2 ;;
    Ok (ra_deg, (d - dm / 60 - ds / 3600)%float).

(** [math.pi] *)
Definition math_pi : float := 0x1.921fb54442d18p+1%float.

(** [math.sin] and [math.cos] raise [ValueError] on an infinite argument;
    their values are used by nothing that is executed. *)
Definition math_trig (x : float) : result unit :=
  if is_infinity x then Raise ValueError else Ok tt.

(** One of the two loops over a definition table. *)
Fixpoint emit_table (header : list entry) (statusDict : gmap string pyval)
    (hdr : Header) : result Header :=
  match header with
  | [] => Ok hdr
  | e :: rest =>
      if String.eqb (StatAlias e) "NA" then
        emit_table rest statusDict
          (hdr_set (FitsKey e) (FitsDefault e) (FitsComment e) hdr)
      else
        v <- getitem statusDict (StatAlias e) ;;
        emit_table rest statusDict (hdr_set (FitsKey e) v (FitsComment e) hdr)
  end.

(** [s[:-3]] *)
Definition drop_last3 (s : string) : string := drop_last (drop_last (drop_last s)).

(** [fullHeader is False]: identity with the singleton [False]. *)
Definition is_False (v : pyval) : bool :=
  match v with
  | VBool false => true
  | _ => false
  end.

(** The part of [fetch_header] up to the test of [fullHeader]. *)
Definition fixed_fields {T : TimeOps} (frameid itime : pyval) (utc_start : datetime)
    : result Header :=
  let hdr : Header := [] in
  it <- py_float itime ;;
  utc_end <- add_seconds utc_start it ;;
  hst_start <- sub_hours utc_start 10 ;;
  hst_end <- add_seconds hst_start it ;;
  date_obs_str <- strftime_date utc_start ;;
  utc_start_str <- strftime_time utc_start ;;
  utc_end_str <- strftime_time utc_end ;;
  hst_start_str <- strftime_time hst_start ;;
  hst_end_str <- strftime_time hst_end ;;
  let utc_start_str := drop_last3 utc_start_str in
  let utc_end_str := drop_last3 utc_end_str in
  let hst_start_str := drop_last3 hst_start_str in
  let hst_end_str := drop_last3 hst_end_str in
  let hdr := hdr_set "DATE-OBS" (VStr date_obs_str) "Observation start date (yyyy-mm-dd)" hdr in
  let hdr := hdr_set "UT" (VStr utc_start_str) "HH:MM:SS.SS typical UTC at exposure" hdr in
  let hdr := hdr_set "UT-STR" (VStr utc_start_str) "HH:MM:SS.SS UTC at exposure start" hdr in
  let hdr := hdr_set "UT-END" (VStr utc_end_str) "HH:MM:SS.SS UTC at exposure end" hdr in
  let hdr := hdr_set "HST" (VStr hst_start_str) "HH:MM:SS.SS typical HST at exposure" hdr in
  let hdr := hdr_set "HST-STR" (VStr hst_start_str) "HH:MM:SS.SS HST at exposure start" hdr in
  let hdr := hdr_set "HST-END" (VStr hst_end_str) "HH:MM:SS.SS HST at exposure end" hdr in
  t_start <- mjd utc_start ;;
  t_end <- mjd utc_end ;;
  let hdr := hdr_set "MJD" (VFloat t_start) "Modified Julian Day at typical time" hdr in
  let hdr := hdr_set "MJD-STR" (VFloat t_start) "Modified Julian Day at exposure start" hdr in
  let hdr := hdr_set "MJD-END" (VFloat t_end) "Modified Julian Day at exposure end" hdr in
  let hdr := hdr_set "FRAMEID" frameid "Image sequential number" hdr in
  let hdr := hdr_set "EXPTIME" (VFloat it) "Total integration time of the frame (sec)" hdr in
  Ok hdr.

Definition comment_rule : string :=
  "------------------------------------------------------------------------".

Definition comment_title : string :=
  "---------------- Parameters for AO188/LGS -- ---------------------------".

(** The block headed "WCS parameters" (lines 460-475).  What it computes
    goes into cards only under [if False:], so nothing of it reaches the
    header; what it may raise does stop the build. *)
Definition wcs (s : self) : result unit :=
  pad <- getitem (statusDictAO s) "AON.IMR.PAD" ;;
  imrpad <- py_float pad ;;
  _ <- radec_deg (statusDictTel s) ;;
  math_trig (imrpad * math_pi / 180)%float.

(** The part of [fetch_header] after the test of [fullHeader]. *)
Definition full_fields (s : self) (target : pyval) (hdr : Header) : result Header :=
  let hdr := hdr_set "OBJECT" target "Target description" hdr in
  hdr <- emit_table (tel_header s) (statusDictTel s) hdr ;;
  _ <- wcs s ;;
  let hdr := hdr_setitem "COMMENT" (VStr comment_rule) hdr in
  let hdr := hdr_setitem "COMMENT" (VStr comment_title) hdr in
  let hdr := hdr_setitem "COMMENT" (VStr comment_rule) hdr in
  emit_table (ao_header s) (statusDictAO s) hdr.

Definition fetch_header {T : TimeOps} (s : self) (path : pyval)
    (frameid mode itime target : pyval) (utc_start : datetime)
    (fullHeader : pyval) : result Header :=
  hdr <- fixed_fields frameid itime utc_start ;;
  if is_False fullHeader then Ok hdr
  else full_fields s target hdr.

(** *** The network entry points ([return_new_header], [localCmd]) *)

(** The OCS delegate, as far as the header path calls it: the status
    refresh, which fills the dictionary it is given, and the frame-id
    service. *)
Record OCS := {
  requestOCSstatus : gmap string pyval -> result (gmap string pyval);
  getFrames : pyval -> pyval -> result (list string)
}.

(** What a local command hands back to the query handler. *)
Inductive retval :=
| RHeader (h : Header)
| RFrames (framelist : list string)
| RNone.

(** [now] is the reading of [datetime.utcnow()] made by the call.  The
    refreshed dictionaries stay in the instance whether or not the build
    succeeds. *)
Definition return_new_header {T : TimeOps} (ocs : OCS) (now : datetime) (s : self)
    (frameid mode itime fullHeader : pyval) : self * result Header :=
  match requestOCSstatus ocs (statusDictTel s) with
  | Raise e => (s, Raise e)
  | Ok dT =>
      let s := set_statusDictTel dT s in
      let refreshed :=
        if ao_stat s =? 1 then
          match requestOCSstatus ocs (statusDictAO s) with
          | Raise e => (s, Raise e)
          | Ok dA => (set_statusDictAO dA s, Ok tt)
          end
        else (s, Ok tt) in
      match refreshed with
      | (s, Raise e) => (s, Raise e)
      | (s, Ok _) =>
          (s, it <- py_float itime ;;
              fetch_header s (VStr "here") frameid mode (VFloat it)
                (VStr "planetX") now fullHeader)
      end
  end.

Definition reqframes (ocs : OCS) (num type : pyval) : result (list string) :=
  getFrames ocs num type.

Definition localCmd {T : TimeOps} (ocs : OCS) (now : datetime) (s : self)
    (cmdStr : string) : self * result retval :=
  let args := split_ws cmdStr in
  match args with
  | [] => (s, Raise IndexError)
  | cmd :: cmdargs =>
      if String.eqb cmd "hdr" then
        let call frameid mode itime fullHeader :=
          let '(s', r) := return_new_header ocs now s frameid mode itime fullHeader in
          (s', h <- r ;; Ok (RHeader h)) in
        match cmdargs with
        | [frameid; mode; itime] =>
            call (VStr frameid) (VStr mode) (VStr itime) (VBool true)
        | [frameid; mode; itime; fullHeader] =>
            call (VStr frameid) (VStr mode) (VStr itime) (VStr fullHeader)
        | _ => (s, Raise TypeError)
        end
      else if String.eqb cmd "seqno" then
        let call num type :=
          (s, l <- reqframes ocs num type ;; Ok (RFrames l)) in
        match cmdargs with
        | [] => call (VInt 1) (VStr "A")
        | [num] => call (VStr num) (VStr "A")
        | [num; type] => call (VStr num) (VStr type)
        | _ => (s, Raise TypeError)
        end
      else (s, Ok RNone)
  end.

(** *** Life cycle ([start], [stop])

    Task objects live in a pool and are named by their index.  The loop of
    an [IntervalTask] or [PowerMonTask] (g2cam's [common_task]) ends once
    its own [stop()] has been called; the loop of a [HeaderTask] tests the
    [ev_quit] event, which [init_and_start] shares from the instance.  The
    [start] and [stop] hooks of the base class [BASECAM] act on none of the
    fields below and are left out. *)

Inductive task_kind :=
| IntervalTask (interval : float)
| PowerMonTask (upstime : float)
| HeaderTask (port : Z).

Record task := Task {
  kind : task_kind;
  started : bool;
  stop_requested : bool
}.

Definition init_and_start (t : task) : task :=
  Task (kind t) true (stop_requested t).

Definition task_stop (t : task) : task :=
  Task (kind t) (started t) true.

Record World := {
  facade : self;
  (** [self.param.status_interval] *)
  status_interval : float;
  pool : list task;
  ev_quit : bool;
  (** the status store of the OCS: tag, then field *)
  vals : gmap string (gmap string pyval);
  (** the shell commands run so far, oldest first *)
  execs : list string;
  (** the readings [time.time()] delivers, and how many were taken *)
  wall : nat -> float;
  ticks : nat
}.

Definition set_facade (s : self) (w : World) : World :=
  Build_World s (status_interval w) (pool w) (ev_quit w) (vals w) (execs w)
    (wall w) (ticks w).

Definition set_pool (p : list task) (w : World) : World :=
  Build_World (facade w) (status_interval w) p (ev_quit w) (vals w) (execs w)
    (wall w) (ticks w).

Definition set_vals (v : gmap string (gmap string pyval)) (w : World) : World :=
  Build_World (facade w) (status_interval w) (pool w) (ev_quit w) v (execs w)
    (wall w) (ticks w).

Definition set_execs (l : list string) (w : World) : World :=
  Build_World (facade w) (status_interval w) (pool w) (ev_quit w) (vals w) l
    (wall w) (ticks w).

Definition set_ticks (n : nat) (w : World) : World :=
  Build_World (facade w) (status_interval w) (pool w) (ev_quit w) (vals w)
    (execs w) (wall w) n.


Definition start (w : World) : World :=
  (* t = common_task.IntervalTask(...); self.status_task = t; t.init_and_start(self) *)
  let t := Task (IntervalTask (status_interval w)) false false in
  let h := length (pool w) in
  let w := set_pool (pool w ++ [t]) w in
  let w := set_facade (set_status_task (Some h) (facade w)) w in
  let w := set_pool (alter init_and_start h (pool w)) w in
  (* t = common_task.PowerMonTask(...): built, neither kept nor started *)
  let t := Task (PowerMonTask 60) false false in
  let w := set_pool (pool w ++ [t]) w in
  (* t = HeaderTask(6666, self.localCmd); t.init_and_start(self) *)
  let t := Task (HeaderTask 6666) false false in
  let h := length (pool w) in
  let w := set_pool (pool w ++ [t]) w in
  set_pool (alter init_and_start h (pool w)) w.

Definition stop (w : World) : World :=
  let w :=
    match status_task (facade w) with
    | Some h => set_pool (alter task_stop h (pool w)) w
    | None => w
    end in
  let w := set_facade (set_status_task None (facade w)) w in
  let w :=
    match power_task (facade w) with
    | Some h => set_pool (alter task_stop h (pool w)) w
    | None => w
    end in
  set_facade (set_power_task None (facade w)) w.

(** *** Command dispatch ([dispatchCommand]) *)

(** What [getattr] can find on the instance: a bound method, which takes
    the positional and the keyword arguments, or any other attribute. *)
Inductive attr :=
| Method (f : list pyval -> gmap string pyval -> World -> World * result pyval)
| Data (v : pyval).

Definition dispatchCommand (getattr : World -> string -> option attr)
    (tag : string) (cmdName : string) (args : list pyval)
    (kwdargs : gmap string pyval) (w : World) : World * result pyval :=
  let params : gmap string pyval := ∅ in
  let params := kwdargs ∪ params in
  let params := <["tag" := VStr tag]> params in
  match getattr w cmdName with
  | None =>
      let result := "ERROR: No such method in subsystem: " +:+ cmdName in
      (w, Raise (CamCommandError result))
  | Some (Method method) => method args params w
  | Some (Data _) => (w, Raise TypeError)
  end.

(** Binding of the positional and keyword arguments of a call to the
    formal parameters of a method, each with its default: a positional argument that is also given
    by keyword, a surplus positional argument or an unknown keyword is a
    [TypeError]. *)
Fixpoint bind_params (formals : list (string * pyval)) (args : list pyval)
    (kw : gmap string pyval) : result (list pyval) :=
  match formals, args with
  | [], [] =>
      match map_to_list kw with
      | [] => Ok []
      | _ => Raise TypeError
      end
  | [], _ :: _ => Raise TypeError
  | (n, _) :: fs, a :: rest =>
      match kw !! n with
      | Some _ => Raise TypeError
      | None => vs <- bind_params fs rest kw ;; Ok (a :: vs)
      end
  | (n, d) :: fs, [] =>
      vs <- bind_params fs [] (delete n kw) ;;
      Ok (default d (kw !! n) :: vs)
  end.

(** [obcp_mode(self, motor='OFF', mode=None, tag=None)] *)
Definition obcp_mode (args : list pyval) (kw : gmap string pyval) (w : World)
    : World * result pyval :=
  match bind_params [("motor", VStr "OFF"); ("mode", VNone); ("tag", VNone)] args kw with
  | Ok [motor; mode; tag] => (set_facade (set_mode mode (facade w)) w, Ok VNone)
  | Ok _ => (w, Raise TypeError)
  | Raise e => (w, Raise e)
  end.

(** [kablooie(self, motor='OFF')] *)
Definition kablooie (args : list pyval) (kw : gmap string pyval) (w : World)
    : World * result pyval :=
  match bind_params [("motor", VStr "OFF")] args kw with
  | Ok _ => (w, Raise (CHARISError "KA-BLOOIE!!!"))
  | Raise e => (w, Raise e)
  end.

(** The attributes of the instance that the examples below look up; an
    instance has more. *)
Definition getattr (w : World) (name : string) : option attr :=
  if String.eqb name "mode" then Some (Data (mode (facade w)))
  else if String.eqb name "ao_stat" then Some (Data (VInt (ao_stat (facade w))))
  else if String.eqb name "obcp_mode" then Some (Method obcp_mode)
  else if String.eqb name "kablooie" then Some (Method kablooie)
  else None.

(** *** The [ramp] command *)

(** [self.ocs.setvals(tag, field=value, ...)]: the fields given replace those of the
    same name under the tag. *)
Definition setvals (tag : string) (kw : gmap string pyval) (w : World) : World :=
  set_vals (<[tag := kw ∪ default ∅ (vals w !! tag)]> (vals w)) w.

(** The field of a tag as a reader of the status store finds it. *)
Definition getval (tag field : string) (w : World) : option pyval :=
  vals w !! tag ≫= lookup field.

(** [time.time()] *)
Definition time_time (w : World) : float * World :=
  (wall w (ticks w), set_ticks (S (ticks w)) w).

(** ['%d' % z] *)
Definition str_of_Z (z : Z) : string :=
  pretty z.

(** ['%0.1f' % x]: the exact value of [x] rounded to one decimal, ties to
    even. *)
Definition round_tenths (m : positive) (e : Z) : Z :=
  if 0 <=? e then Zpos m * 2 ^ e * 10
  else
    let den := 2 ^ (- e) in
    let q := (Zpos m * 10) / den in
    let r := (Zpos m * 10) mod den in
    if 2 * r <? den then q
    else if den <? 2 * r then q + 1
    else if Z.even q then q else q + 1.

Definition format_f1 (x : float) : string :=
  match Prim2SF x with
  | S754_nan => "nan"
  | S754_infinity s => if s then "-inf" else "inf"
  | S754_zero s => if s then "-0.0" else "0.0"
  | S754_finite s m e =>
      let t := round_tenths m e in
      (if s then "-" else "") +:+ str_of_Z (t / 10) +:+ "." +:+ str_of_Z (t mod 10)
  end.

(** Conversion of an [int] operand in mixed arithmetic. *)
Definition int_to_float (z : Z) : result float :=
  let f := float_of_Z z in
  if is_infinity f then Raise OverflowError else Ok f.

(** [execOneCmd] builds the command line of the [oneCmd.py] wrapper and
    [execCmd] runs it in a shell; the lines it prints go to the log only
    when no callback is given. *)
Definition execCmd (cmdStr : string) (w : World) : World :=
  set_execs (execs w ++ [cmdStr]) w.

Definition execOneCmd (actor cmdStr : string) (timelim : float) (w : World) : World :=
  execCmd ("oneCmd.py " +:+ actor +:+ " --level=i --timelim=" +:+ format_f1 timelim
             +:+ " " +:+ cmdStr) w.

Definition both_set : string := "Either exptime OR nread can be set. Not both.".

Definition ramp (tag exptype : string) (exptime : float) (nreset nread : Z)
    (target : pyval) (w : World) : World * result pyval :=
  let subtag := tag +:+ ".1" in
  let w := setvals tag {[ "subpath" := VStr subtag ]} w in
  if (0 <? nread) && (0 <? exptime)%float then
    let w := setvals subtag {[ "task_error" := VStr both_set ]} w in
    (w, Ok VNone)
  else
    let '(now, w) := time_time w in
    let w :=
      setvals subtag
        (<["task_start" := VFloat now]>
           {[ "cmd_str" := VStr ("Taking a " +:+ exptype +:+ " ramp(" +:+ str_of_Z nreset
                                   +:+ ", " +:+ str_of_Z nread +:+ ")") ]}) w in
    let args :=
      if 0 <? nread then
        let readArg := "nread=" +:+ str_of_Z nread in
        n <- int_to_float (nread + nreset) ;;
        Ok (readArg, (n * 1.5 + 20)%float)
      else
        let readArg := "itime=" +:+ format_f1 exptime in
        n <- int_to_float nreset ;;
        Ok (readArg, (n * 1.5 + exptime + 20)%float) in
    match args with
    | Raise e => (w, Raise e)
    | Ok (readArg, timelim) =>
        let w := execOneCmd "hx" ("ramp nreset=" +:+ str_of_Z nreset +:+ " " +:+ readArg)
                   timelim w in
        let w := setvals subtag {[ "cmd_str" := VStr "Moved! " ]} w in
        let '(now, w) := time_time w in
        let w :=
          setvals subtag
            (<["task_end" := VFloat now]> {[ "cmd_str" := VStr "Done with ramp" ]}) w in
        (w, Ok VNone)
    end.

(** *** Initialisation ([initialize])

    The part of [initialize] that builds the fields modelled here: the two
    definition files are read in turn and each gives its dictionary; what
    has been assigned stays assigned when the second file fails. *)

Definition telescope_list : string := "header_telescope_20160917.txt".
Definition ao188_list : string := "header_ao188+lgs_obs_20110425.txt".

Definition initialize (open : string -> option string) (s : self)
    : self * result unit :=
  match read_header_list open telescope_list with
  | Raise e => (s, Raise e)
  | Ok tel =>
      let s := Self (mode s) tel (init_stat_dict tel) (ao_header s)
                 (statusDictAO s) (ao_stat s) (status_task s) (power_task s) in
      match read_header_list open ao188_list with
      | Raise e => (s, Raise e)
      | Ok ao =>
          (Self (mode s) (tel_header s) (statusDictTel s) ao (init_stat_dict ao)
             1 None None, Ok tt)
      end
  end.

(** *** Sequences of [start] and [stop] *)

Inductive op := Start | Stop.

Definition step (w : World) (o : op) : World :=
  match o with
  | Start => start w
  | Stop => stop w
  end.

Definition run (ops : list op) (w : World) : World := fold_left step ops w.

Definition is_Start (o : op) : bool :=
  match o with
  | Start => true
  | Stop => false
  end.

Definition is_IntervalTask (t : task) : bool :=
  match kind t with
  | IntervalTask _ => true
  | _ => false
  end.

(** A header task whose thread has been started. *)
Definition header_running (t : task) : bool :=
  match kind t with
  | HeaderTask _ => started t
  | _ => false
  end.

Definition is_PowerMonTask (t : task) : bool :=
  match kind t with
  | PowerMonTask _ => true
  | _ => false
  end.

(** A power monitor whose thread has been started. *)
Definition power_mon_started (t : task) : bool :=
  is_PowerMonTask t && started t.

(** *** The commands [grism], [shutter] and [filter]

    The argument [pos] or [name] is a string, or [None] when it is left
    out; [time.sleep] changes nothing of the state. *)

(** ['%s' % x] *)
Definition str_of (x : option string) : string := default "None" x.

Definition grism (tag : string) (pos : option string) (w : World)
    : World * result pyval :=
  let subtag := tag +:+ ".1" in
  let w := setvals tag {[ "subpath" := VStr subtag ]} w in
  let '(now, w) := time_time w in
  let w :=
    setvals subtag
      (<["task_start" := VFloat now]>
         {[ "cmd_str" := VStr "NOT really Moving grism stage...." ]}) w in
  let w := setvals subtag {[ "cmd_str" := VStr "Moved! (liar!)" ]} w in
  let '(now, w) := time_time w in
  let w :=
    setvals subtag (<["task_end" := VFloat now]> {[ "cmd_str" := VStr "Done." ]}) w in
  (w, Ok VNone).

Definition shutter (tag : string) (pos : option string) (w : World)
    : World * result pyval :=
  let subtag := tag +:+ ".1" in
  let w := setvals tag {[ "subpath" := VStr subtag ]} w in
  let '(now, w) := time_time w in
  let w :=
    setvals subtag
      (<["task_start" := VFloat now]>
         {[ "cmd_str" := VStr ("moving shutter to " +:+ str_of pos) ]}) w in
  let w := setvals subtag {[ "cmd_str" := VStr "Moved! " ]} w in
  let '(now, w) := time_time w in
  let w := setvals subtag {[ "task_end" := VFloat now ]} w in
  (w, Ok VNone).

(** ['filter ' + name] is a [TypeError] when [name] is [None]. *)
Definition filter (tag : string) (name : option string) (w : World)
    : World * result pyval :=
  let subtag := tag +:+ ".1" in
  let w := setvals tag {[ "subpath" := VStr subtag ]} w in
  let '(now, w) := time_time w in
  let w :=
    setvals subtag
      (<["task_start" := VFloat now]>
         {[ "cmd_str" := VStr ("moving filter to " +:+ str_of name) ]}) w in
  match name with
  | None => (w, Raise TypeError)
  | Some name =>
      let w := execOneCmd "charis" ("filter " +:+ name) 90 w in
      let w := setvals subtag {[ "cmd_str" := VStr "Moved! " ]} w in
      let '(now, w) := time_time w in
      let w := setvals subtag {[ "task_end" := VFloat now ]} w in
      (w, Ok VNone)
  end.

End CHARIS.

(** ** The query server *)

Module HeaderQueryHandler.

Inductive event :=
| Warn (req : string) (e : exn)      (* logging.warn *)
| Sendall (w : wire)                 (* self.request.sendall *)
| HandleError (e : exn)              (* SocketServer's report of a failed handler *)
| Close                              (* SocketServer closes the connection *)
| Stopping.                          (* the last log line of the task *)

(** [self.request.recv(1024)]: at most 1024 bytes of what has arrived. *)
Definition recv (n : nat) (data : string) : string := String.substring 0 n data.

(** [hdr.tostring()] exists on headers only. *)
Definition serialise (r : CHARIS.retval) : result wire :=
  match r with
  | CHARIS.RHeader h => Ok (tostring h)
  | _ => Raise AttributeError
  end.

(** [localFunc] is the bound method registered with the server; [S] is the
    state of the object it is bound to. *)
Definition handle {S : Type} (localFunc : S -> string -> S * result CHARIS.retval)
    (st : S) (data : string) : S * list event * result unit :=
  let req := strip (recv 1024 data) in
  let '(st, r) := localFunc st req in
  let '(log, hdr) :=
    match r with
    | Ok hdr => ([], hdr)
    | Raise e => ([Warn req e], CHARIS.RHeader [])
    end in
  match serialise hdr with
  | Ok bytes => (st, log ++ [Sendall bytes], Ok tt)
  | Raise e => (st, log, Raise e)
  end.

Definition is_Close (e : event) : bool :=
  match e with
  | Close => true
  | _ => false
  end.

Definition is_Sendall (e : event) : bool :=
  match e with
  | Sendall _ => true
  | _ => false
  end.

Definition is_HandleError (e : event) : bool :=
  match e with
  | HandleError _ => true
  | _ => false
  end.

End HeaderQueryHandler.

Module HeaderServer.
Import HeaderQueryHandler.

(** [handle_request] of SocketServer, with [timeout] set: nothing when no
    connection comes within the timeout; otherwise the handler runs, a
    failure of the handler is reported, and the connection is closed. *)
Definition handle_request {S : Type}
    (localFunc : S -> string -> S * result CHARIS.retval)
    (st : S) (conn : option string) : S * list event :=
  match conn with
  | None => (st, [])
  | Some data =>
      match handle localFunc st data with
      | (st, evs, Ok _) => (st, evs ++ [Close])
      | (st, evs, Raise e) => (st, evs ++ [HandleError e; Close])
      end
  end.

End HeaderServer.

Module HeaderTask.
Import HeaderQueryHandler.

(** One turn of the clock as the loop sees it: [ev_quit] has been set, or a
    call of [handle_request] that meets a connection or times out. *)
Inductive tick :=
| Quit
| Poll (conn : option string).

(** [stop]: sets the shared event. *)
Definition stop (w : CHARIS.World) : CHARIS.World :=
  CHARIS.Build_World (CHARIS.facade w) (CHARIS.status_interval w) (CHARIS.pool w)
    true (CHARIS.vals w) (CHARIS.execs w) (CHARIS.wall w) (CHARIS.ticks w).

(** [execute]: the loop [while not self.ev_quit.isSet()].  The schedule is
    consumed one tick per test of the event. *)
Fixpoint execute {S : Type} (localFunc : S -> string -> S * result CHARIS.retval)
    (st : S) (schedule : list tick) : S * list event :=
  match schedule with
  | [] => (st, [])
  | Quit :: _ => (st, [Stopping])
  | Poll conn :: rest =>
      let '(st, evs) := HeaderServer.handle_request localFunc st conn in
      let '(st, evs') := execute localFunc st rest in
      (st, evs ++ evs')
  end.

(** The connections a schedule brings before [ev_quit] is seen. *)
Fixpoint served (schedule : list tick) : nat :=
  match schedule with
  | [] => O
  | Quit :: _ => O
  | Poll (Some _) :: rest => S (served rest)
  | Poll None :: rest => served rest
  end.

End HeaderTask.

(** ** A reference clock

    An instance of [TimeOps] on which the examples are evaluated: an instant
    is a count of microseconds from 0001-01-01T00:00:00 in the proleptic
    Gregorian calendar, as in [datetime].  The modified Julian date is the
    quotient rounded once; astropy's two-part arithmetic may differ from it
    in the last place. *)

Module RefClock.

Definition us_per_day : Z := 86400000000.

(** [date(9999, 12, 31).toordinal()] *)
Definition max_ordinal : Z := 3652059.

(** ordinals of 1970-01-01, 1900-01-01 and 1858-11-17 *)
Definition ordinal_1970 : Z := 719163.
Definition ordinal_1900 : Z := 693596.
Definition ordinal_mjd0 : Z := 678576.

Definition in_range (t : Z) : bool :=
  (0 <=? t) && (t <? max_ordinal * us_per_day).

(** Integer part of a finite float, towards zero. *)
Definition trunc (f : float) : Z :=
  match Prim2SF f with
  | S754_finite s m e =>
      let a := if 0 <=? e then Zpos m * 2 ^ e else Zpos m / 2 ^ (- e) in
      if s then - a else a
  | _ => 0
  end.

(** The C helper [round_to_long]: halves go away from zero. *)
Definition round_to_long (x : float) : Z :=
  if (0 <=? x)%float then trunc (x + 0.5)%float else trunc (x - 0.5)%float.

(** Microseconds of [timedelta(seconds=f)], as the C implementation
    accumulates them: whole seconds, then the fraction scaled in binary64. *)
Definition delta_us (f : float) : Z :=
  let ip := trunc f in
  let frac := (f - float_of_Z ip)%float in
  let scaled := (1000000 * frac)%float in
  let sp := trunc scaled in
  ip * 1000000 + sp + round_to_long (scaled - float_of_Z sp)%float.

Definition shift (t d : Z) : result Z :=
  if in_range (t + d) then Ok (t + d) else Raise OverflowError.

Definition add_seconds (t : Z) (f : float) : result Z :=
  if is_nan f then Raise ValueError
  else if is_infinity f then Raise OverflowError
  else
    let d := delta_us f in
    if (999999999 <? Z.abs (d / us_per_day)) then Raise OverflowError
    else shift t d.

Definition sub_hours (t : Z) (n : Z) : result Z := shift t (- (n * 3600000000)).

(** Year, month and day of a count of days since 1970-01-01. *)
Definition civil (z : Z) : Z * Z * Z :=
  let z := z + 719468 in
  let era := z / 146097 in
  let doe := z - era * 146097 in
  let yoe := (doe - doe / 1460 + doe / 36524 - doe / 146096) / 365 in
  let doy := doe - (365 * yoe + yoe / 4 - yoe / 100) in
  let mp := (5 * doy + 2) / 153 in
  let d := doy - (153 * mp + 2) / 5 + 1 in
  let m := if mp <? 10 then mp + 3 else mp - 9 in
  let y := yoe + era * 400 + (if m <=? 2 then 1 else 0) in
  (y, m, d).

Fixpoint pad (width : nat) (z : Z) : string :=
  match width with
  | O => ""
  | S n => pad n (z / 10) +:+ pretty (z mod 10)
  end.

(** Python 2 refuses to format years before 1900. *)
Definition formats (t : Z) : bool :=
  ordinal_1900 - 1 <=? t / us_per_day.

Definition strftime_date (t : Z) : result string :=
  if formats t then
    let '(y, m, d) := civil (t / us_per_day + 1 - ordinal_1970) in
    Ok (pad 4 y +:+ "-" +:+ pad 2 m +:+ "-" +:+ pad 2 d)
  else Raise ValueError.

Definition strftime_time (t : Z) : result string :=
  if formats t then
    let us := t mod us_per_day in
    Ok (pad 2 (us / 3600000000) +:+ ":" +:+ pad 2 (us / 60000000 mod 60) +:+ ":"
          +:+ pad 2 (us / 1000000 mod 60) +:+ "." +:+ pad 6 (us mod 1000000))
  else Raise ValueError.

Definition mjd (t : Z) : result float :=
  Ok (float_of_Z (t - (ordinal_mjd0 - 1) * us_per_day) / float_of_Z us_per_day)%float.

(** [datetime(y, m, d, H, M, S)] for a date given by its ordinal. *)
Definition at_ordinal (ordinal H M S : Z) : Z :=
  (ordinal - 1) * us_per_day + ((H * 60 + M) * 60 + S) * 1000000.

End RefClock.

Definition ref_clock : TimeOps := {|
  datetime := Z;
  add_seconds := RefClock.add_seconds;
  sub_hours := RefClock.sub_hours;
  strftime_date := RefClock.strftime_date;
  strftime_time := RefClock.strftime_time;
  mjd := RefClock.mjd
|}.

(** ** Sample data

    Two small definition files in the format of the header lists, a status
    source that answers for the aliases it knows, and an instance
    initialised from them as [initialize] does. *)

Module Sample.
Import CHARIS.

Definition nl : string := String "010" EmptyString.

Definition tel_text : string :=
  "# StatusAlias FitsKey Type Default Comment" +:+ nl +:+
  "FITS.SBR.RA RA string 00:00:00.000 Right ascension of pointing" +:+ nl +:+
  "FITS.SBR.DEC DEC string +00:00:00.00 Declination of pointing" +:+ nl +:+
  "FITS.SBR.AIRMASS AIRMASS float 1.0 Air mass" +:+ nl +:+
  "NA TELESCOP string Subaru Telescope name" +:+ nl.

Definition ao_text : string :=
  "AON.IMR.PAD D_IMRPAD float 0.0 Image rotator position angle" +:+ nl +:+
  "NA D_NLOOP int 188 Number of elements" +:+ nl.

(** A file whose [int] default is not a number. *)
Definition bad_text : string :=
  "FITS.SBR.AIRMASS AIRMASS float 1.0 Air mass" +:+ nl +:+
  "NA D_NLOOP int abc Number of elements" +:+ nl.

Definition tel_file : string := "header_telescope_20160917.txt".
Definition ao_file : string := "header_ao188+lgs_obs_20110425.txt".
Definition bad_file : string := "header_bad.txt".

Definition files (name : string) : option string :=
  if String.eqb name tel_file then Some tel_text
  else if String.eqb name ao_file then Some ao_text
  else if String.eqb name bad_file then Some bad_text
  else None.

Definition table (name : string) : list entry :=
  match read_header_list files name with
  | Ok header => header
  | Raise _ => []
  end.

Definition live : gmap string pyval :=
  <["FITS.SBR.RA" := VStr "10:00:00"]>
  (<["FITS.SBR.DEC" := VStr "-20:30:00"]>
  (<["FITS.SBR.AIRMASS" := VFloat 1.25]>
  {[ "AON.IMR.PAD" := VFloat 30.5 ]})).

(** The status source fills in the aliases it knows and leaves the others
    as they are. *)
Definition refresh (live : gmap string pyval) (d : gmap string pyval)
    : gmap string pyval :=
  map_imap (fun k v => Some (default v (live !! k))) d.

Definition ocs : OCS := {|
  requestOCSstatus := fun d => Ok (refresh live d);
  getFrames := fun _ _ => Ok ["CRSA00000001"]
|}.

Definition instance (tel ao : list entry) : self := {|
  mode := VStr "default";
  tel_header := tel;
  statusDictTel := init_stat_dict tel;
  ao_header := ao;
  statusDictAO := init_stat_dict ao;
  ao_stat := 1;
  status_task := None;
  power_task := None
|}.

Definition charis : self := instance (table tel_file) (table ao_file).

(** The same instance after one refresh of its dictionaries. *)
Definition charis_live : self :=
  set_statusDictAO (refresh live (statusDictAO charis))
    (set_statusDictTel (refresh live (statusDictTel charis)) charis).






(** 2016-09-17T03:04:05 UTC *)
Definition now : Z := RefClock.at_ordinal 736224 3 4 5.

Definition world (s : self) : World := {|
  facade := s;
  status_interval := 10;
  pool := [];
  ev_quit := false;
  vals := ∅;
  execs := [];
  wall := fun n => (1474081445 + float_of_Z (Z.of_nat n))%float;
  ticks := 0
|}.

End Sample.

(** ** Statements of the specification

    The wording of the specification, put as predicates on the model, for
    those statements that are compared with what the code does. *)

Module Spec.
Import CHARIS.

(** A line with a [float] or [int] type field whose default token is not a
    literal of that type. *)
Definition bad_default (line : string) : Prop :=
  startswith "#" line = false /\
  exists alias key type tok,
    let param := re_split (drop_last line) in
    nth_error param 0 = Some alias /\ nth_error param 1 = Some key /\
    nth_error param 2 = Some type /\ nth_error param 3 = Some tok /\
    ((type = "float" /\ float_of_string tok = None) \/
     (type = "int" /\ long_of_string tok = None)).




(** "A status snapshot containing all required aliases": every alias of
    the table other than [NA] is in the dictionary. *)
Definition all_aliases_present (header : list entry) (d : gmap string pyval)
    : Prop :=
  Forall (fun e => StatAlias e = "NA" \/ is_Some (d !! StatAlias e)) header.



(** "A command name that resolves to an operation on the facade". *)
Definition resolves_to_operation (getattr : World -> string -> option attr)
    (w : World) (cmdName : string) : Prop :=
  exists f, getattr w cmdName = Some (Method f).

(** "Every name that does not resolve to an operation fails with the typed
    error." *)
Definition unknown_command_rejected (getattr : World -> string -> option attr)
    (w : World) (cmdName : string) : Prop :=
  ~ resolves_to_operation getattr w cmdName ->
  forall tag args kwdargs,
    exists msg,
      snd (dispatchCommand getattr tag cmdName args kwdargs w)
      = Raise (CamCommandError msg).

(** "Writes [task_error] under the sub-tag and returns without any other
    side effects." *)
Definition rejected_without_other_effects (tag exptype : string) (exptime : float)
    (nreset nread : Z) (target : pyval) (w : World) : Prop :=
  ramp tag exptype exptime nreset nread target w
  = (setvals (tag +:+ ".1") {[ "task_error" := VStr both_set ]} w, Ok VNone).


(** A field of a definition line: not empty, and free of the separators
    of the pattern. *)
Fixpoint sep_free (t : string) : bool :=
  match t with
  | EmptyString => true
  | String c r => negb (is_sep c) && sep_free r
  end.

Definition is_field (t : string) : bool :=
  negb (String.eqb t "") && sep_free t.

(** A string put in front of the first piece of a split. *)
Definition prepend (t : string) (l : list string) : list string :=
  match l with
  | w :: ws => (t +:+ w) :: ws
  | [] => [t]
  end.

(** The handle [status_task], when set, names an [IntervalTask] of the
    pool, and [power_task] is not set. *)
Definition handles_ok (w : World) : Prop :=
  power_task (facade w) = None
  /\ match status_task (facade w) with
     | Some h => exists t, pool w !! h = Some t /\ is_IntervalTask t = true
     | None => True
     end.

(** What a command that runs to its end leaves in the status store: the
    sub-tag under the tag, and under the sub-tag the two readings of the
    clock it took. *)
Definition reports_completion (tag : string) (w w' : World) : Prop :=
  getval tag "subpath" w' = Some (VStr (tag +:+ ".1"))
  /\ getval (tag +:+ ".1") "task_start" w' = Some (VFloat (wall w (ticks w)))
  /\ getval (tag +:+ ".1") "task_end" w' = Some (VFloat (wall w (S (ticks w))))
  /\ ticks w' = S (S (ticks w))
  /\ getval (tag +:+ ".1") "task_error" w' = getval (tag +:+ ".1") "task_error" w.

End Spec.

(** * Properties *)

Import CHARIS Spec HeaderQueryHandler.

(** ** Splitting at a separator *)

Section Split.

Variable sep : ascii.

Lemma contains_cons c s :
  contains sep (String c s) = false ->
  Ascii.eqb c sep = false /\ contains sep s = false.
Proof.
  cbn [contains]. intros E. apply orb_false_elim in E. exact E.
Qed.

Lemma split_on_whole s : contains sep s = false -> split_on sep s = [s].
Proof.
  induction s as [|c r IH]; intros E; [reflexivity|].
  apply contains_cons in E as [Ec Er].
  cbn [split_on]. rewrite Ec, (IH Er). reflexivity.
Qed.

Lemma split_on_cut a b :
  contains sep a = false ->
  split_on sep (a +:+ String sep b) = a :: split_on sep b.
Proof.
  induction a as [|c r IH]; intros E.
  - change ("" +:+ String sep b) with (String sep b).
    cbn [split_on]. rewrite Ascii.eqb_refl. reflexivity.
  - apply contains_cons in E as [Ec Er].
    change (String c r +:+ String sep b) with (String c (r +:+ String sep b)).
    cbn [split_on]. rewrite Ec, (IH Er). reflexivity.
Qed.

Lemma split_on_three a b c :
  contains sep a = false -> contains sep b = false -> contains sep c = false ->
  split_on sep (a +:+ String sep (b +:+ String sep c)) = [a; b; c].
Proof.
  intros Ea Eb Ec.
  rewrite (split_on_cut _ _ Ea), (split_on_cut _ _ Eb), (split_on_whole _ Ec).
  reflexivity.
Qed.

End Split.

(** ** Results and the two halves of the build *)

(** Any value of [fullHeader] other than the Boolean [False] takes the
    build through both halves. *)





(** ** Setting cards in a header *)

Section Cards.

Implicit Types (h : Header) (c : card) (k K : string) (v : pyval).




(** *** [update_first] *)




(** *** [append_card] and [insert_after_last] *)





(** *** [hdr_update] *)






End Cards.

(** ** The passes over the definition tables *)

Section Tables.

Implicit Types (header : list entry) (d : gmap string pyval) (h : Header).


(** With every alias at hand the pass goes through. *)
Lemma emit_table_total header d h :
  all_aliases_present header d -> exists h', emit_table header d h = Ok h'.
Proof.
  intros Hall. revert h. induction Hall as [|e rest He _ IH]; intros h.
  - exists h. reflexivity.
  - cbn [emit_table]. destruct (String.eqb_spec (StatAlias e) "NA") as [E|E].
    + apply IH.
    + destruct He as [He|[v Hv]]; [contradiction|].
      unfold getitem. rewrite Hv. cbn [bind]. apply IH.
Qed.






End Tables.




(** ** C1: right ascension and declination in degrees *)

Lemma float_at_parsed (param : list string) (i : nat) (p : string) (f : float) :
  nth_error param i = Some p -> float_of_string p = Some f ->
  float_at param i = Ok f.
Proof.
  intros Hn Hf. unfold float_at, index. rewrite Hn. cbn [bind py_float].
  rewrite Hf. reflexivity.
Qed.

(** C1. Whenever [FITS.SBR.RA] holds a sexagesimal string [H:M:S] and
    [FITS.SBR.DEC] holds [D:M:S], the conversion of the full-header build
    (lines 463-472) yields the right ascension [15*(H + M/60 + S/3600)] and the
    declination with minutes and seconds subtracted when the degree token
    contains a minus sign and added otherwise; ["10:00:00"] gives exactly
    [150.0] and ["-20:30:00"] exactly [-20.5]. *)
Theorem C1_radec_degrees (d : gmap string pyval) :
  (forall (H M S D DM DS : string) (h m s dd dm ds : float),
      d !! "FITS.SBR.RA" = Some (VStr (H +:+ ":" +:+ M +:+ ":" +:+ S)) ->
      d !! "FITS.SBR.DEC" = Some (VStr (D +:+ ":" +:+ DM +:+ ":" +:+ DS)) ->
      Forall (fun t => contains ":" t = false) [H; M; S; D; DM; DS] ->
      float_of_string H = Some h -> float_of_string M = Some m ->
      float_of_string S = Some s ->
      float_of_string D = Some dd -> float_of_string DM = Some dm ->
      float_of_string DS = Some ds ->
      radec_deg d =
        Ok ((15 * (h + m / 60 + s / 3600))%float,
            if contains "-" D then (dd - dm / 60 - ds / 3600)%float
            else (dd + dm / 60 + ds / 3600)%float))
  /\ (d !! "FITS.SBR.RA" = Some (VStr "10:00:00") ->
      d !! "FITS.SBR.DEC" = Some (VStr "-20:30:00") ->
      radec_deg d = Ok (150%float, (-20.5)%float)).
Proof.
  split.
  - intros H M S D DM DS h m s dd dm ds Hra Hdec Hcolon Hh Hm Hs Hd Hdm Hds.
    repeat match goal with
           | F : Forall _ (_ :: _) |- _ => apply Forall_cons_1 in F as [? F]
           end.
    unfold radec_deg, getitem. rewrite Hra, Hdec. cbn [bind py_split].
    change (H +:+ ":" +:+ M +:+ ":" +:+ S)
      with (H +:+ String ":" (M +:+ String ":" S)).
    change (D +:+ ":" +:+ DM +:+ ":" +:+ DS)
      with (D +:+ String ":" (DM +:+ String ":" DS)).
    rewrite !split_on_three by assumption.
    rewrite (float_at_parsed [H; M; S] 0 H h), (float_at_parsed [H; M; S] 1 M m),
      (float_at_parsed [H; M; S] 2 S s) by (reflexivity || assumption).
    cbn [bind index nth_error].
    rewrite (float_at_parsed [D; DM; DS] 0 D dd),
      (float_at_parsed [D; DM; DS] 1 DM dm),
      (float_at_parsed [D; DM; DS] 2 DS ds) by (reflexivity || assumption).
    destruct (contains "-" D); reflexivity.
  - intros Hra Hdec. unfold radec_deg, getitem. rewrite Hra, Hdec.
    vm_compute. reflexivity.
Qed.

(** The tokens of the sample status: ten hours, minus twenty and a half
    degrees. *)
Lemma C1_radec_degrees_witness :
  radec_deg (statusDictTel Sample.charis_live) = Ok (150%float, (-20.5)%float).
Proof.
  rewrite (proj1 (C1_radec_degrees (statusDictTel Sample.charis_live))
             "10" "00" "00" "-20" "30" "00"
             10%float 0%float 0%float (-20)%float 30%float 0%float);
    try (vm_compute; reflexivity).
  repeat constructor.
Defined.

(** ** C2: a default that does not parse *)

Lemma read_line_bad_default (line : string) (prev : option pyval) :
  bad_default line -> read_line line prev = Raise ValueError.
Proof.
  intros [_ (alias & key & type & tok & H0 & H1 & H2 & H3 & Hbad)].
  unfold read_line, index. rewrite H0, H1, H2. cbn [bind].
  unfold coerce_default, index.
  destruct Hbad as [[-> Hf] | [-> Hl]].
  - cbn [String.eqb Ascii.eqb Bool.eqb]. rewrite H3. cbn [bind py_float].
    rewrite Hf. reflexivity.
  - cbn [String.eqb Ascii.eqb Bool.eqb]. rewrite H3. cbn [bind].
    unfold py_long. rewrite Hl. reflexivity.
Qed.

(** The loop over the lines raises built-in exceptions only. *)
Lemma read_line_not_CHARISError (line : string) (prev : option pyval) (e : exn) :
  read_line line prev = Raise e -> is_CamCommandError e = false.
Proof.
  unfold read_line, coerce_default, index, py_long, py_float.
  repeat (cbn [bind];
          match goal with
          | |- context [match ?x with _ => _ end] => destruct x
          | |- context [if ?x then _ else _] => destruct x
          end);
    cbn [bind]; intros E; try discriminate; injection E as <-; reflexivity.
Qed.

Lemma read_lines_not_CHARISError (lines : list string) :
  forall (prev : option pyval) (e : exn),
    read_lines lines prev = Raise e -> is_CamCommandError e = false.
Proof.
  induction lines as [|line rest IH]; intros prev e; cbn [read_lines].
  - discriminate.
  - destruct (startswith "#" line); [apply IH|].
    destruct (read_line line prev) as [r|e'] eqn:Er; cbn [bind].
    + destruct (read_lines rest (snd r)) as [h|e'] eqn:Et; cbn [bind].
      * discriminate.
      * intros E; injection E as <-. exact (IH _ _ Et).
    + intros E; injection E as <-. exact (read_line_not_CHARISError _ _ _ Er).
Qed.

(** A source with such a line never loads, and what stops it is never the
    typed error of the personality. *)
Lemma read_lines_bad_default (lines : list string) (line : string) :
  In line lines -> bad_default line ->
  forall prev, exists e,
    read_lines lines prev = Raise e /\ is_CamCommandError e = false.
Proof.
  intros Hin Hbad.
  induction lines as [|l rest IH]; [destruct Hin|]. intros prev.
  assert (Hfail : forall (r : result (list entry)),
             is_ok r = false ->
             r = read_lines (l :: rest) prev ->
             exists e, read_lines (l :: rest) prev = Raise e
                       /\ is_CamCommandError e = false).
  { intros r Hr ->. destruct (read_lines (l :: rest) prev) as [h|e] eqn:E.
    - discriminate.
    - exists e. split; [reflexivity|]. exact (read_lines_not_CHARISError _ _ _ E). }
  apply (Hfail (read_lines (l :: rest) prev)); [|reflexivity].
  destruct Hin as [-> | Hin].
  - cbn [read_lines]. rewrite (proj1 Hbad), (read_line_bad_default _ _ Hbad).
    reflexivity.
  - cbn [read_lines]. destruct (startswith "#" l).
    + destruct (IH Hin prev) as (e & -> & _). reflexivity.
    + destruct (read_line l prev) as [r|e]; cbn [bind]; [|reflexivity].
      destruct (IH Hin (snd r)) as (e & -> & _). reflexivity.
Qed.

(** C2. A definition file whose [int] default is [abc] makes
    [read_header_list] fail, but with the built-in [ValueError] of the
    conversion, which is not a [CHARISError] (nor any [CamCommandError]);
    only the failure to open the file is reported with the typed error. *)
Theorem C2_bad_default_raises_ValueError :
  read_header_list Sample.files Sample.bad_file = Raise ValueError
  /\ is_CHARISError ValueError = false
  /\ is_CamCommandError ValueError = false
  /\ read_header_list Sample.files "missing.txt"
     = Raise (CHARISError "cannot open missing.txt").
Proof.
  repeat split; vm_compute; reflexivity.
Qed.

(** ** C3: [start] and [stop] *)



Lemma alter_app_last {A} (f : A -> A) (l : list A) (x : A) :
  alter f (length l) (l ++ [x]) = l ++ [f x].
Proof. induction l as [|a l IH]; cbn; [reflexivity|]. f_equal. exact IH. Qed.

Lemma pool_after_start (w : World) :
  pool (start w)
  = pool w ++ [Task (IntervalTask (status_interval w)) true false;
               Task (PowerMonTask 60) false false;
               Task (HeaderTask 6666) true false]
  /\ status_task (facade (start w)) = Some (length (pool w))
  /\ power_task (facade (start w)) = power_task (facade w)
  /\ ev_quit (start w) = ev_quit w.
Proof.
  unfold start. cbn [pool facade set_pool set_facade ev_quit status_interval
                       set_status_task status_task power_task].
  rewrite !alter_app_last. cbn [init_and_start kind stop_requested].
  rewrite <- !app_assoc. repeat split.
Qed.



(** ** C4: a handler that raises *)

(** C4. When the registered handler raises on a request, the server logs
    the failure, sends the serialisation of an empty header and closes the
    connection, and the loop of the task goes on with what comes next. *)
Theorem C4_failed_handler_is_answered {S : Type}
    (localFunc : S -> string -> S * result retval) (st st' : S) (data : string)
    (e : exn) :
  localFunc st (strip (recv 1024 data)) = (st', Raise e) ->
  HeaderServer.handle_request localFunc st (Some data)
  = (st', [Warn (strip (recv 1024 data)) e; Sendall (tostring []); Close])
  /\ forall rest : list HeaderTask.tick,
      HeaderTask.execute localFunc st (HeaderTask.Poll (Some data) :: rest)
      = (fst (HeaderTask.execute localFunc st' rest),
         [Warn (strip (recv 1024 data)) e; Sendall (tostring []); Close]
           ++ snd (HeaderTask.execute localFunc st' rest)).
Proof.
  intros Hraise.
  assert (Hreq : HeaderServer.handle_request localFunc st (Some data)
                 = (st', [Warn (strip (recv 1024 data)) e; Sendall (tostring []); Close])).
  { unfold HeaderServer.handle_request, handle. rewrite Hraise. reflexivity. }
  split; [exact Hreq|].
  intros rest. cbn [HeaderTask.execute]. rewrite Hreq.
  destruct (HeaderTask.execute localFunc st' rest). reflexivity.
Qed.

(** A request whose exposure time is not a number makes [localCmd] raise
    [ValueError]; the client still gets an answer and the next request is
    served. *)
Lemma C4_failed_handler_is_answered_witness :
  HeaderTask.execute (localCmd (T := ref_clock) Sample.ocs Sample.now) Sample.charis_live
    [HeaderTask.Poll (Some "hdr 9999 1 abc"); HeaderTask.Poll (Some "hdr 9999 1 abc");
     HeaderTask.Quit]
  = (Sample.charis_live,
     [Warn "hdr 9999 1 abc" ValueError; Sendall (tostring []); Close;
      Warn "hdr 9999 1 abc" ValueError; Sendall (tostring []); Close; Stopping]).
Proof.
  assert (Hraise : localCmd (T := ref_clock) Sample.ocs Sample.now Sample.charis_live
                     (strip (recv 1024 "hdr 9999 1 abc"))
                   = (Sample.charis_live, Raise ValueError)).
  { vm_compute. reflexivity. }
  rewrite (proj2 (C4_failed_handler_is_answered _ _ _ _ _ Hraise)).
  rewrite (proj2 (C4_failed_handler_is_answered _ _ _ _ _ Hraise)).
  reflexivity.
Defined.

(** ** C5: the short form and the long form *)




(** ** C6: an alias that the status dictionary lacks *)




(** ** C7: command dispatch *)

(** On the sample instance the name [mode] finds the string attribute set
    by the constructor; the call of a string is a [TypeError], not the
    typed error of the dispatcher. *)
Lemma C7_unknown_command_rejected_counterexample :
  ~ unknown_command_rejected getattr (Sample.world Sample.charis) "mode".
Proof.
  intros Hrej.
  destruct (Hrej (fun '(ex_intro _ f Hf) => ltac:(discriminate Hf)) "tag" [] ∅)
    as [msg Hmsg].
  discriminate Hmsg.
Qed.

(** C7, as the code has it. A name that [getattr] does not find fails with
    [CamCommandError]; a name bound to a method calls it with the positional
    arguments and with the keyword arguments in which [tag] has been set,
    and hands back its outcome; a name bound to anything else is called all
    the same and fails with [TypeError]. *)
Theorem C7_dispatchCommand (getattr : World -> string -> option attr)
    (tag cmdName : string) (args : list pyval) (kwdargs : gmap string pyval)
    (w : World) :
  (getattr w cmdName = None ->
   dispatchCommand getattr tag cmdName args kwdargs w
   = (w, Raise (CamCommandError ("ERROR: No such method in subsystem: " +:+ cmdName))))
  /\ (forall method,
         getattr w cmdName = Some (Method method) ->
         dispatchCommand getattr tag cmdName args kwdargs w
         = method args (<["tag" := VStr tag]> kwdargs) w)
  /\ (forall v,
         getattr w cmdName = Some (Data v) ->
         dispatchCommand getattr tag cmdName args kwdargs w = (w, Raise TypeError)).
Proof.
  unfold dispatchCommand. rewrite (right_id_L ∅ (∪) kwdargs).
  split; [|split].
  - intros ->. reflexivity.
  - intros method ->. reflexivity.
  - intros v ->. reflexivity.
Qed.

(** Three names on the sample instance: one that is missing, the method
    [obcp_mode], which stores its [mode] argument, and the attribute
    [mode]. *)
Lemma C7_dispatchCommand_witness :
  let w := Sample.world Sample.charis in
  snd (dispatchCommand getattr "tag" "no_such" [] ∅ w)
  = Raise (CamCommandError "ERROR: No such method in subsystem: no_such")
  /\ (let r := dispatchCommand getattr "tag" "obcp_mode" [VStr "ON"]
                 {[ "mode" := VStr "spec" ]} w in
      mode (facade (fst r)) = VStr "spec" /\ snd r = Ok VNone)
  /\ snd (dispatchCommand getattr "tag" "mode" [] ∅ w) = Raise TypeError.
Proof.
  intros w. split; [|split].
  - rewrite (proj1 (C7_dispatchCommand getattr "tag" "no_such" [] ∅ w)) by reflexivity.
    reflexivity.
  - rewrite (proj1 (proj2 (C7_dispatchCommand getattr "tag" "obcp_mode" [VStr "ON"]
                             {[ "mode" := VStr "spec" ]} w)) obcp_mode) by reflexivity.
    split; vm_compute; reflexivity.
  - rewrite (proj2 (proj2 (C7_dispatchCommand getattr "tag" "mode" [] ∅ w))
               (VStr "default")) by reflexivity.
    reflexivity.
Defined.

(** ** C8: [ramp] with both an exposure time and a number of reads *)

Lemma append_length (a b : string) :
  String.length (a +:+ b) = (String.length a + String.length b)%nat.
Proof.
  induction a as [|c a IH]; [reflexivity|].
  change (S (String.length (a +:+ b)) = S (String.length a + String.length b)).
  f_equal. exact IH.
Qed.

Lemma subtag_fresh (tag : string) : tag <> tag +:+ ".1".
Proof.
  intros E. apply (f_equal String.length) in E. rewrite append_length in E.
  cbn in E. lia.
Qed.

Lemma getval_setvals_same (tag field : string) (kw : gmap string pyval) (w : World) :
  getval tag field (setvals tag kw w)
  = match kw !! field with
    | Some v => Some v
    | None => getval tag field w
    end.
Proof.
  unfold getval, setvals. cbn [vals set_vals]. rewrite lookup_insert_eq.
  cbn. rewrite lookup_union. destruct (kw !! field) as [v|] eqn:E.
  - destruct (default ∅ (vals w !! tag) !! field); reflexivity.
  - rewrite (left_id_L None union). destruct (vals w !! tag); [reflexivity|].
    cbn. apply lookup_empty.
Qed.

Lemma getval_setvals_other (tag tag' field : string) (kw : gmap string pyval)
    (w : World) :
  tag <> tag' -> getval tag' field (setvals tag kw w) = getval tag' field w.
Proof.
  intros Hne. unfold getval, setvals. cbn [vals set_vals].
  rewrite lookup_insert_ne by exact Hne. reflexivity.
Qed.

(** On the sample world the rejected command also leaves the association
    [subpath] under the tag of the command. *)
Lemma C8_rejected_without_other_effects_counterexample :
  ~ rejected_without_other_effects "tag" "TEST" 1.5 1 2 VNone (Sample.world Sample.charis).
Proof.
  unfold rejected_without_other_effects. intros E.
  apply (f_equal (fun r => getval "tag" "subpath" (fst r))) in E.
  vm_compute in E. discriminate E.
Qed.

(** C8, as the code has it. With [nread] and [exptime] both positive,
    [ramp] records the sub-tag under the tag of the command, writes
    [task_error] under the sub-tag and returns: it reads no clock, runs no
    external command, and leaves every other field of the status store,
    [task_start] of the sub-tag among them, as it was. *)
Theorem C8_ramp_rejects_both (tag exptype : string) (exptime : float)
    (nreset nread : Z) (target : pyval) (w : World) :
  0 < nread -> (0 <? exptime)%float = true ->
  let subtag := tag +:+ ".1" in
  let w' := fst (ramp tag exptype exptime nreset nread target w) in
  ramp tag exptype exptime nreset nread target w
  = (setvals subtag {[ "task_error" := VStr both_set ]}
       (setvals tag {[ "subpath" := VStr subtag ]} w), Ok VNone)
  /\ getval subtag "task_error" w' = Some (VStr both_set)
  /\ getval tag "subpath" w' = Some (VStr subtag)
  /\ (forall field, field <> "task_error" ->
        getval subtag field w' = getval subtag field w)
  /\ (forall field, field <> "subpath" -> getval tag field w' = getval tag field w)
  /\ (forall t field, t <> tag -> t <> subtag -> getval t field w' = getval t field w)
  /\ execs w' = execs w /\ ticks w' = ticks w
  /\ pool w' = pool w /\ facade w' = facade w /\ ev_quit w' = ev_quit w.
Proof.
  intros Hn He subtag w'.
  assert (Hr : ramp tag exptype exptime nreset nread target w
               = (setvals subtag {[ "task_error" := VStr both_set ]}
                    (setvals tag {[ "subpath" := VStr subtag ]} w), Ok VNone)).
  { unfold ramp. fold subtag. apply Z.ltb_lt in Hn. rewrite Hn, He. reflexivity. }
  pose proof (subtag_fresh tag) as Hfresh. fold subtag in Hfresh.
  subst w'. rewrite Hr. cbn [fst].
  refine (conj eq_refl (conj _ (conj _ (conj _ (conj _ (conj _ _)))))).
  - rewrite getval_setvals_same. reflexivity.
  - rewrite getval_setvals_other by congruence. rewrite getval_setvals_same.
    reflexivity.
  - intros field Hf. rewrite getval_setvals_same.
    rewrite lookup_singleton_ne by congruence.
    apply getval_setvals_other. exact Hfresh.
  - intros field Hf. rewrite getval_setvals_other by congruence.
    rewrite getval_setvals_same. rewrite lookup_singleton_ne by congruence.
    reflexivity.
  - intros t field Ht Hs. rewrite !getval_setvals_other by congruence. reflexivity.
  - repeat split.
Qed.

(** The command [ramp] with two reads and an exposure time of 1.5 s on the
    sample world. *)
Lemma C8_ramp_rejects_both_witness :
  let w := Sample.world Sample.charis in
  let w' := fst (ramp "tag" "TEST" 1.5 1 2 VNone w) in
  getval "tag.1" "task_error" w' = Some (VStr both_set)
  /\ getval "tag.1" "task_start" w' = None
  /\ execs w' = [].
Proof.
  intros w w'.
  destruct (C8_ramp_rejects_both "tag" "TEST" 1.5 1 2 VNone w eq_refl eq_refl)
    as (_ & Herr & _ & Hsub & _ & _ & Hex & _).
  split; [exact Herr|]. split; [|exact Hex].
  exact (Hsub "task_start" ltac:(discriminate)).
Defined.

(** ** C9: the request ["hdr 9999 1 4.5"] *)








(** ** C10: the test of [fullHeader] *)



(** * Further properties of the code *)

(** ** The definition tables *)

Lemma init_stat_dict_fold (header : list entry) (m : gmap string pyval) (a : string) :
  a <> "NA" ->
  fold_left
    (fun statusDict e =>
       if negb (String.eqb (StatAlias e) "NA")
       then <[StatAlias e := FitsDefault e]> statusDict
       else statusDict) header m !! a
  = match last (List.filter (fun e => String.eqb (StatAlias e) a) header) with
    | Some e => Some (FitsDefault e)
    | None => m !! a
    end.
Proof.
  intros Ha. revert m. induction header as [|e rest IH]; intros m; [reflexivity|].
  cbn [fold_left List.filter]. rewrite IH.
  destruct (String.eqb_spec (StatAlias e) a) as [E|E].
  - rewrite last_cons.
    destruct (last (List.filter _ rest)); [reflexivity|].
    destruct (String.eqb_spec (StatAlias e) "NA") as [E'|_]; [congruence|].
    cbn [negb]. rewrite E. rewrite lookup_insert_eq. reflexivity.
  - destruct (last (List.filter _ rest)); [reflexivity|].
    destruct (negb (String.eqb (StatAlias e) "NA")); [|reflexivity].
    apply lookup_insert_ne. exact E.
Qed.

(** X1. The dictionary built from a table holds, for each alias other than
    [NA], the default of the last row that names it, and holds nothing
    else. *)
Theorem init_stat_dict_lookup (header : list entry) (a : string) :
  init_stat_dict header !! a
  = if String.eqb a "NA" then None
    else FitsDefault <$> last (List.filter (fun e => String.eqb (StatAlias e) a) header).
Proof.
  unfold init_stat_dict. destruct (String.eqb_spec a "NA") as [->|Ha].
  - induction header as [|e rest IH] using rev_ind; [reflexivity|].
    rewrite fold_left_app. cbn [fold_left].
    destruct (String.eqb_spec (StatAlias e) "NA") as [E|E]; cbn [negb]; [exact IH|].
    rewrite lookup_insert_ne by exact E. exact IH.
  - rewrite (init_stat_dict_fold header ∅ a Ha).
    destruct (last (List.filter _ header)); reflexivity.
Qed.

Lemma init_stat_dict_present (header : list entry) :
  all_aliases_present header (init_stat_dict header).
Proof.
  apply List.Forall_forall. intros e Hin.
  destruct (String.eqb_spec (StatAlias e) "NA") as [E|E]; [left; exact E|].
  right. unfold init_stat_dict. rewrite (init_stat_dict_fold header ∅ (StatAlias e) E).
  assert (Hne : List.filter (fun x => String.eqb (StatAlias x) (StatAlias e)) header <> []).
  { intros Hnil.
    assert (Hin' : In e (List.filter (fun x => String.eqb (StatAlias x) (StatAlias e)) header)).
    { apply filter_In. split; [exact Hin | apply String.eqb_refl]. }
    rewrite Hnil in Hin'. destruct Hin'. }
  apply last_is_Some in Hne as [x ->]. eexists. reflexivity.
Qed.

(** X2. Once [initialize] has gone through, the two tables are those of
    the two files, each dictionary has every alias of its table, so that
    neither pass of the header build over them can meet a missing alias,
    both task handles are empty, and the AO status is switched on. *)
Theorem initialize_establishes (open : string -> option string) (s s' : self) :
  initialize open s = (s', Ok tt) ->
  read_header_list open telescope_list = Ok (tel_header s')
  /\ read_header_list open ao188_list = Ok (ao_header s')
  /\ statusDictTel s' = init_stat_dict (tel_header s')
  /\ statusDictAO s' = init_stat_dict (ao_header s')
  /\ (forall hdr, is_ok (emit_table (tel_header s') (statusDictTel s') hdr) = true)
  /\ (forall hdr, is_ok (emit_table (ao_header s') (statusDictAO s') hdr) = true)
  /\ status_task s' = None /\ power_task s' = None /\ ao_stat s' = 1
  /\ mode s' = mode s.
Proof.
  unfold initialize. intros E.
  destruct (read_header_list open telescope_list) as [tel|]; [|discriminate E].
  destruct (read_header_list open ao188_list) as [ao|]; [|discriminate E].
  injection E as <-. cbn [tel_header ao_header statusDictTel statusDictAO status_task
                            power_task ao_stat mode].
  repeat split.
  - intros hdr. destruct (emit_table_total tel _ hdr (init_stat_dict_present tel)) as [h ->].
    reflexivity.
  - intros hdr. destruct (emit_table_total ao _ hdr (init_stat_dict_present ao)) as [h ->].
    reflexivity.
Qed.

(** The two sample files. *)
Lemma initialize_establishes_witness :
  initialize Sample.files (Sample.instance [] []) = (Sample.charis, Ok tt)
  /\ forall hdr,
      is_ok (emit_table (tel_header Sample.charis) (statusDictTel Sample.charis) hdr) = true.
Proof.
  assert (E : initialize Sample.files (Sample.instance [] []) = (Sample.charis, Ok tt))
    by (vm_compute; reflexivity).
  split; [exact E|].
  exact (proj1 (proj2 (proj2 (proj2 (proj2
           (initialize_establishes Sample.files _ _ E)))))).
Defined.

(** X3. Comment lines count for nothing: a source and the same source
    without its lines that begin with [#] give the same outcome. *)
Theorem read_lines_skips_comments (lines : list string) (prev : option pyval) :
  read_lines lines prev
  = read_lines (List.filter (fun l => negb (startswith "#" l)) lines) prev.
Proof.
  revert prev. induction lines as [|l rest IH]; intros prev; [reflexivity|].
  cbn [read_lines List.filter]. destruct (startswith "#" l) eqn:E; cbn [negb].
  - apply IH.
  - cbn [read_lines]. rewrite E. destruct (read_line l prev) as [r|]; [|reflexivity].
    cbn [bind]. rewrite IH. reflexivity.
Qed.

(** X4. A table that loads has one row per line that is not a comment, in
    the order of the file, and the alias and the key of a row are the first
    two fields of its line. *)
Theorem read_lines_rows (lines : list string) :
  forall (prev : option pyval) (header : list entry),
    read_lines lines prev = Ok header ->
    map (fun e => [StatAlias e; FitsKey e]) header
    = map (fun l => firstn 2 (re_split (drop_last l)))
        (List.filter (fun l => negb (startswith "#" l)) lines).
Proof.
  induction lines as [|l rest IH]; intros prev header E.
  - injection E as <-. reflexivity.
  - cbn [read_lines List.filter] in *. destruct (startswith "#" l); cbn [negb].
    + exact (IH _ _ E).
    + destruct (read_line l prev) as [[e p]|] eqn:El; [|discriminate E].
      cbn [bind fst snd] in E.
      destruct (read_lines rest p) as [h|] eqn:Er; [|discriminate E].
      injection E as <-. cbn [map]. rewrite (IH _ _ Er). f_equal.
      unfold read_line, index in El.
      destruct (re_split (drop_last l)) as [|a [|k [|t param]]]; try discriminate El.
      cbn [nth_error bind] in El.
      destruct (coerce_default t (a :: k :: t :: param) prev) as [[d|]|];
        try discriminate El.
      cbn [bind] in El. injection El as <- _. reflexivity.
Qed.

(** The sample telescope file has four rows. *)
Lemma read_lines_rows_witness :
  map (fun e => [StatAlias e; FitsKey e]) (Sample.table Sample.tel_file)
  = [["FITS.SBR.RA"; "RA"]; ["FITS.SBR.DEC"; "DEC"]; ["FITS.SBR.AIRMASS"; "AIRMASS"];
     ["NA"; "TELESCOP"]].
Proof.
  assert (E : read_lines (file_lines Sample.tel_text) None = Ok (Sample.table Sample.tel_file))
    by (vm_compute; reflexivity).
  rewrite (read_lines_rows _ _ _ E). vm_compute. reflexivity.
Defined.

(** ** Lines of a definition file *)

Lemma re_split_aux_cons (b : bool) (s : string) :
  exists w ws, re_split_aux b s = w :: ws.
Proof.
  revert b. induction s as [|c r IH]; intros b; cbn [re_split_aux]; [eauto|].
  destruct (is_sep c).
  - destruct b; [apply IH | eauto].
  - destruct (IH false) as (w & ws & ->). cbn [cons_head]. eauto.
Qed.

Lemma append_empty_r (t : string) : t +:+ "" = t.
Proof.
  induction t as [|c t IH]; [reflexivity|].
  change (String c (t +:+ "") = String c t). rewrite IH. reflexivity.
Qed.

Lemma sep_free_cons (c : ascii) (t : string) :
  sep_free (String c t) = true -> is_sep c = false /\ sep_free t = true.
Proof.
  cbn [sep_free]. intros E. apply andb_true_iff in E as [Hc Ht].
  apply negb_true_iff in Hc. split; assumption.
Qed.

(** A field at the head of a string comes out as the head of the first
    piece. *)
Lemma re_split_aux_field (t r : string) (b : bool) :
  is_field t = true ->
  re_split_aux b (t +:+ r) = prepend t (re_split_aux false r).
Proof.
  unfold is_field. intros E. apply andb_true_iff in E as [Hne Hfree].
  destruct t as [|c t]; [discriminate Hne|]. clear Hne.
  revert c b Hfree. induction t as [|c' t IH]; intros c b Hfree.
  - apply sep_free_cons in Hfree as [Hc _].
    change (String c "" +:+ r) with (String c r). cbn [re_split_aux]. rewrite Hc.
    destruct (re_split_aux_cons false r) as (w & ws & ->). reflexivity.
  - apply sep_free_cons in Hfree as [Hc Hfree].
    change (String c (String c' t) +:+ r) with (String c (String c' t +:+ r)).
    cbn [re_split_aux]. rewrite Hc. rewrite (IH c' false Hfree).
    destruct (re_split_aux_cons false r) as (w & ws & ->). reflexivity.
Qed.

(** Fields joined by single spaces split into the same fields. *)
Lemma re_split_aux_join (toks : list string) :
  toks <> [] -> List.Forall (fun t => is_field t = true) toks ->
  forall b, re_split_aux b (join " " toks) = toks.
Proof.
  induction toks as [|t ts IH]; [congruence|]. intros _ Hf b.
  apply List.Forall_cons_iff in Hf as [Ht Hts].
  destruct ts as [|t' ts].
  - cbn [join]. rewrite <- (append_empty_r t) at 1.
    rewrite (re_split_aux_field t "" b Ht). cbn [re_split_aux prepend].
    rewrite append_empty_r. reflexivity.
  - change (join " " (t :: t' :: ts)) with (t +:+ String " " (join " " (t' :: ts))).
    rewrite (re_split_aux_field t _ b Ht).
    cbn [re_split_aux]. change (is_sep " ") with true. cbn match.
    rewrite (IH ltac:(discriminate) Hts true). cbn [prepend].
    rewrite append_empty_r. reflexivity.
Qed.

Lemma drop_last_newline (s : string) : drop_last (s +:+ String "010" "") = s.
Proof.
  induction s as [|c s IH]; [reflexivity|].
  change (String c s +:+ String "010" "") with (String c (s +:+ String "010" "")).
  cbn [drop_last]. rewrite IH.
  destruct s; reflexivity.
Qed.

(** X5. A row written as fields separated by single spaces reads back as
    those fields: the alias, the key, the default converted by its type, and
    the remaining words joined again into the comment. *)
Theorem read_line_of_fields (alias key dflt : string) (words : list string)
    (prev : option pyval) :
  List.Forall (fun t => is_field t = true) (alias :: key :: dflt :: words) ->
  let line type := join " " (alias :: key :: type :: dflt :: words) +:+ String "010" "" in
  read_line (line "string") prev
  = Ok (Entry alias key "string" (VStr dflt) (join " " words), Some (VStr dflt))
  /\ (forall f, float_of_string dflt = Some f ->
        read_line (line "float") prev
        = Ok (Entry alias key "float" (VFloat f) (join " " words), Some (VFloat f)))
  /\ (forall z, long_of_string dflt = Some z ->
        read_line (line "int") prev
        = Ok (Entry alias key "int" (VInt z) (join " " words), Some (VInt z))).
Proof.
  intros Hf line.
  apply List.Forall_cons_iff in Hf as [Ha Hf].
  apply List.Forall_cons_iff in Hf as [Hk Hf].
  assert (Hsplit : forall type, is_field type = true ->
            re_split (drop_last (line type)) = alias :: key :: type :: dflt :: words).
  { intros type Ht. unfold line. rewrite drop_last_newline. unfold re_split.
    apply re_split_aux_join; [discriminate|].
    repeat (apply List.Forall_cons; [assumption|]). exact Hf. }
  split; [|split].
  - unfold read_line. rewrite (Hsplit "string" eq_refl). reflexivity.
  - intros f Hparse. unfold read_line. rewrite (Hsplit "float" eq_refl).
    cbn [index nth_error bind]. unfold coerce_default.
    cbn [String.eqb Ascii.eqb Bool.eqb index nth_error bind py_float].
    rewrite Hparse. reflexivity.
  - intros z Hparse. unfold read_line. rewrite (Hsplit "int" eq_refl).
    cbn [index nth_error bind]. unfold coerce_default.
    cbn [String.eqb Ascii.eqb Bool.eqb index nth_error bind]. unfold py_long.
    rewrite Hparse. reflexivity.
Qed.

(** A row for the air mass. *)
Lemma read_line_of_fields_witness :
  read_line (String.append "FITS.SBR.AIRMASS AIRMASS float 1.5 Air mass at start"
               (String "010" "")) None
  = Ok (Entry "FITS.SBR.AIRMASS" "AIRMASS" "float" (VFloat 1.5) "Air mass at start",
        Some (VFloat 1.5)).
Proof.
  apply (proj1 (proj2 (read_line_of_fields "FITS.SBR.AIRMASS" "AIRMASS" "1.5"
                         ["Air"; "mass"; "at"; "start"] None
                         ltac:(repeat constructor)))).
  vm_compute. reflexivity.
Defined.

Lemma read_line_default (line : string) (prev p : option pyval) (e : entry) :
  read_line line prev = Ok (e, p) -> p = Some (FitsDefault e).
Proof.
  unfold read_line. intros E.
  repeat match type of E with
         | bind ?r _ = _ => destruct r; [cbn [bind] in E | discriminate E]
         end.
  match type of E with match ?d with _ => _ end = _ => destruct d end;
    [|discriminate E].
  injection E as <- <-. reflexivity.
Qed.

(** X6. A row whose type is none of [string], [float] and [int] is given no
    default of its own: as the first row it stops the load with
    [UnboundLocalError]; after another row it takes over the default of that
    row, whatever its own fourth field says. *)
Theorem read_lines_unknown_type (line alias key type : string) (fields : list string) :
  startswith "#" line = false ->
  re_split (drop_last line) = alias :: key :: type :: fields ->
  type <> "string" -> type <> "float" -> type <> "int" ->
  read_lines [line] None = Raise UnboundLocalError
  /\ forall (l1 : string) (e1 : entry) (p : option pyval),
      startswith "#" l1 = false ->
      read_line l1 None = Ok (e1, p) ->
      read_lines [l1; line] None
      = Ok [e1; Entry alias key type (FitsDefault e1) (join " " (skipn 1 fields))].
Proof.
  intros Hc Hsplit Hs Hfl Hi.
  assert (Hline : forall prev,
            read_line line prev
            = match prev with
              | Some d => Ok (Entry alias key type d (join " " (skipn 1 fields)), Some d)
              | None => Raise UnboundLocalError
              end).
  { intros prev. unfold read_line. rewrite Hsplit. cbn [index nth_error bind].
    unfold coerce_default.
    destruct (String.eqb_spec type "string"); [contradiction|].
    destruct (String.eqb_spec type "float"); [contradiction|].
    destruct (String.eqb_spec type "int"); [contradiction|].
    cbn [bind]. destruct prev; reflexivity. }
  split.
  - cbn [read_lines]. rewrite Hc, Hline. reflexivity.
  - intros l1 e1 p Hc1 H1. cbn [read_lines]. rewrite Hc1, H1. cbn [bind fst snd].
    rewrite Hc. rewrite (read_line_default _ _ _ _ H1), Hline. reflexivity.
Qed.

(** A row of type [double] after the air mass of the sample file. *)
Lemma read_lines_unknown_type_witness :
  read_lines
    [String.append "FITS.SBR.AIRMASS AIRMASS float 1.5 Air mass" (String "010" "");
     String.append "FITS.SBR.ALTITUDE ALTITUDE double 90.0 Altitude" (String "010" "")]
    None
  = Ok [Entry "FITS.SBR.AIRMASS" "AIRMASS" "float" (VFloat 1.5) "Air mass";
        Entry "FITS.SBR.ALTITUDE" "ALTITUDE" "double" (VFloat 1.5) "Altitude"].
Proof.
  eassert (H1 : read_line (String.append "FITS.SBR.AIRMASS AIRMASS float 1.5 Air mass"
                             (String "010" "")) None = Ok (_, _))
    by (vm_compute; reflexivity).
  apply (proj2 (read_lines_unknown_type
                  (String.append "FITS.SBR.ALTITUDE ALTITUDE double 90.0 Altitude"
                     (String "010" ""))
                  "FITS.SBR.ALTITUDE" "ALTITUDE" "double" ["90.0"; "Altitude"]
                  eq_refl ltac:(vm_compute; reflexivity)
                  ltac:(discriminate) ltac:(discriminate) ltac:(discriminate))
           (String.append "FITS.SBR.AIRMASS AIRMASS float 1.5 Air mass" (String "010" ""))
           _ _ eq_refl H1).
Defined.

(** ** The header build *)















(** ** The query server *)

Lemma handle_request_counts {S : Type}
    (localFunc : S -> string -> S * result retval) (st : S) (conn : option string) :
  let evs := snd (HeaderServer.handle_request localFunc st conn) in
  let n := match conn with Some _ => 1%nat | None => 0%nat end in
  length (List.filter is_Close evs) = n
  /\ (length (List.filter is_Sendall evs) + length (List.filter is_HandleError evs))%nat = n.
Proof.
  destruct conn as [data|]; [|split; reflexivity].
  unfold HeaderServer.handle_request, handle.
  destruct (localFunc st (strip (recv 1024 data))) as [st' [[h|l|]|e]]; split; reflexivity.
Qed.

(** X11. Whatever the registered function does, every connection that
    arrives before the task is told to quit is closed exactly once, and gets
    either one reply or one report of a failed handler, never both and never
    neither. *)
Theorem execute_serves_each_connection {S : Type}
    (localFunc : S -> string -> S * result retval) (schedule : list HeaderTask.tick) :
  forall st : S,
    let evs := snd (HeaderTask.execute localFunc st schedule) in
    length (List.filter is_Close evs) = HeaderTask.served schedule
    /\ (length (List.filter is_Sendall evs) + length (List.filter is_HandleError evs))%nat
       = HeaderTask.served schedule.
Proof.
  induction schedule as [|[|conn] rest IH]; intros st; [split; reflexivity ..|].
  cbn [HeaderTask.execute].
  pose proof (handle_request_counts localFunc st conn) as Hc. cbn zeta in Hc.
  destruct (HeaderServer.handle_request localFunc st conn) as [st1 evs1].
  specialize (IH st1). cbn zeta in IH.
  destruct (HeaderTask.execute localFunc st1 rest) as [st2 evs2].
  cbn [snd] in *. rewrite !List.filter_app, !length_app.
  destruct Hc as [Hc1 Hc2], IH as [IH1 IH2].
  destruct conn; cbn [HeaderTask.served]; lia.
Qed.

(** X12. A request whose first word is neither [hdr] nor [seqno] gets no
    reply: [localCmd] returns [None], the serialisation of [None] fails, and
    the connection is closed with nothing sent and nothing changed. *)
Theorem unknown_command_unanswered {T : TimeOps} (ocs : OCS) (now : datetime) (s : self)
    (data cmd : string) (args : list string) :
  split_ws (strip (recv 1024 data)) = cmd :: args ->
  cmd <> "hdr" -> cmd <> "seqno" ->
  HeaderServer.handle_request (localCmd ocs now) s (Some data)
  = (s, [HandleError AttributeError; Close]).
Proof.
  intros Hsplit Hh Hs. unfold HeaderServer.handle_request, handle, localCmd.
  rewrite Hsplit.
  destruct (String.eqb_spec cmd "hdr"); [contradiction|].
  destruct (String.eqb_spec cmd "seqno"); [contradiction|].
  reflexivity.
Qed.

(** A request for the status. *)
Lemma unknown_command_unanswered_witness :
  HeaderServer.handle_request (localCmd (T := ref_clock) Sample.ocs Sample.now)
    Sample.charis (Some "status all")
  = (Sample.charis, [HandleError AttributeError; Close]).
Proof.
  apply (unknown_command_unanswered (T := ref_clock) Sample.ocs Sample.now Sample.charis
           "status all" "status" ["all"]);
    [vm_compute; reflexivity | discriminate | discriminate].
Defined.

(** X13. A [seqno] request that the frame service answers gets no reply
    either: the list of frames has no [tostring], so the connection is
    closed with nothing sent. *)
Theorem seqno_unanswered {T : TimeOps} (ocs : OCS) (now : datetime) (s : self)
    (data : string) (args : list string) (num type : pyval) (framelist : list string) :
  split_ws (strip (recv 1024 data)) = "seqno" :: args ->
  (args = [] /\ num = VInt 1 /\ type = VStr "A"
   \/ (exists n, args = [n] /\ num = VStr n /\ type = VStr "A")
   \/ (exists n t, args = [n; t] /\ num = VStr n /\ type = VStr t)) ->
  getFrames ocs num type = Ok framelist ->
  HeaderServer.handle_request (localCmd ocs now) s (Some data)
  = (s, [HandleError AttributeError; Close]).
Proof.
  intros Hsplit Hargs Hframes. unfold HeaderServer.handle_request, handle, localCmd.
  rewrite Hsplit. cbn [String.eqb Ascii.eqb Bool.eqb]. unfold reqframes.
  destruct Hargs as [(-> & -> & ->) | [(n & -> & -> & ->) | (n & t & -> & -> & ->)]];
    rewrite Hframes; reflexivity.
Qed.

(** One frame of type [A]. *)
Lemma seqno_unanswered_witness :
  HeaderServer.handle_request (localCmd (T := ref_clock) Sample.ocs Sample.now)
    Sample.charis (Some "seqno 1 A")
  = (Sample.charis, [HandleError AttributeError; Close]).
Proof.
  apply (seqno_unanswered (T := ref_clock) Sample.ocs Sample.now Sample.charis
           "seqno 1 A" ["1"; "A"] (VStr "1") (VStr "A") ["CRSA00000001"]).
  - vm_compute. reflexivity.
  - right. right. exists "1", "A". repeat split.
  - reflexivity.
Defined.

(** X14. A request of white space only, and an [hdr] request with fewer
    than three or more than four arguments, are answered with an empty
    header; the status source is not asked and the instance is left as it
    is. *)
Theorem malformed_request_answered_empty {T : TimeOps} (ocs : OCS) (now : datetime)
    (s : self) (data : string) :
  let req := strip (recv 1024 data) in
  (split_ws req = [] ->
   HeaderServer.handle_request (localCmd ocs now) s (Some data)
   = (s, [Warn req IndexError; Sendall (tostring []); Close]))
  /\ (forall args,
        split_ws req = "hdr" :: args ->
        length args <> 3%nat -> length args <> 4%nat ->
        HeaderServer.handle_request (localCmd ocs now) s (Some data)
        = (s, [Warn req TypeError; Sendall (tostring []); Close])).
Proof.
  intros req. split.
  - intros Hsplit. unfold HeaderServer.handle_request, handle, localCmd.
    fold req. rewrite Hsplit. reflexivity.
  - intros args Hsplit H3 H4. unfold HeaderServer.handle_request, handle, localCmd.
    fold req. rewrite Hsplit. cbn [String.eqb Ascii.eqb Bool.eqb].
    destruct args as [|a [|b [|c [|d [|e r]]]]]; try reflexivity;
      cbn [length] in *; congruence.
Qed.

(** A bare [hdr]. *)
Lemma malformed_request_answered_empty_witness :
  HeaderServer.handle_request (localCmd (T := ref_clock) Sample.ocs Sample.now)
    Sample.charis (Some "hdr 9999")
  = (Sample.charis, [Warn "hdr 9999" TypeError; Sendall (tostring []); Close]).
Proof.
  apply (proj2 (malformed_request_answered_empty (T := ref_clock) Sample.ocs Sample.now
                  Sample.charis "hdr 9999") ["9999"]);
    [vm_compute; reflexivity | discriminate | discriminate].
Defined.

(** ** Sequences of [start] and [stop] *)

Lemma filter_alter_length {A} (p : A -> bool) (f : A -> A) (i : nat) (l : list A) :
  (forall x, p (f x) = p x) ->
  length (List.filter p (alter f i l)) = length (List.filter p l).
Proof.
  intros Hp. revert i. induction l as [|a l IH]; intros [|i]; cbn; try reflexivity.
  - rewrite Hp. destruct (p a); reflexivity.
  - destruct (p a); cbn; rewrite IH; reflexivity.
Qed.

Lemma stop_counts (p : task -> bool) (w : World) :
  (forall t, p (task_stop t) = p t) ->
  ev_quit (stop w) = ev_quit w
  /\ length (pool (stop w)) = length (pool w)
  /\ length (List.filter p (pool (stop w))) = length (List.filter p (pool w)).
Proof.
  intros Hp. destruct w as [[m th dt ah da a [i|] [j|]] si pl q v x wl n];
    cbn [stop pool facade set_pool set_facade set_status_task set_power_task
           status_task power_task ev_quit];
    rewrite ?length_alter, ?filter_alter_length by exact Hp; repeat split.
Qed.

Lemma start_counts (w : World) :
  ev_quit (start w) = ev_quit w
  /\ length (pool (start w)) = (length (pool w) + 3)%nat
  /\ length (List.filter header_running (pool (start w)))
     = (length (List.filter header_running (pool w)) + 1)%nat
  /\ length (List.filter is_PowerMonTask (pool (start w)))
     = (length (List.filter is_PowerMonTask (pool w)) + 1)%nat
  /\ length (List.filter power_mon_started (pool (start w)))
     = length (List.filter power_mon_started (pool w)).
Proof.
  destruct (pool_after_start w) as (-> & _ & _ & ->).
  rewrite !List.filter_app, !length_app. cbn. repeat split; lia.
Qed.

Lemma step_counts (w : World) (o : op) :
  let k := if is_Start o then 1%nat else 0%nat in
  ev_quit (step w o) = ev_quit w
  /\ length (pool (step w o)) = (length (pool w) + 3 * k)%nat
  /\ length (List.filter header_running (pool (step w o)))
     = (length (List.filter header_running (pool w)) + k)%nat
  /\ length (List.filter is_PowerMonTask (pool (step w o)))
     = (length (List.filter is_PowerMonTask (pool w)) + k)%nat
  /\ length (List.filter power_mon_started (pool (step w o)))
     = length (List.filter power_mon_started (pool w)).
Proof.
  destruct o; cbn [step is_Start].
  - destruct (start_counts w) as (-> & -> & -> & -> & ->). repeat split; lia.
  - destruct (stop_counts header_running w) as (-> & -> & ->); [reflexivity|].
    destruct (stop_counts is_PowerMonTask w) as (_ & _ & ->); [reflexivity|].
    destruct (stop_counts power_mon_started w) as (_ & _ & ->); [reflexivity|].
    repeat split; lia.
Qed.


(** X16. The power monitor is built and never started: each [start] adds
    one to the pool, and after any sequence of [start] and [stop] the pool
    has as many started power monitors as before. *)
Theorem run_never_starts_power_monitor (ops : list op) :
  forall w : World,
    let w' := run ops w in
    length (List.filter is_PowerMonTask (pool w'))
    = (length (List.filter is_PowerMonTask (pool w)) + length (List.filter is_Start ops))%nat
    /\ length (List.filter power_mon_started (pool w'))
       = length (List.filter power_mon_started (pool w)).
Proof.
  induction ops as [|o ops IH]; intros w; cbn zeta.
  - split; cbn; lia.
  - change (run (o :: ops) w) with (run ops (step w o)).
    specialize (IH (step w o)). cbn zeta in IH.
    destruct (step_counts w o) as (_ & _ & _ & Hp & Hs). cbn zeta in Hp.
    destruct IH as (IHp & IHs). rewrite Hp in IHp. rewrite Hs in IHs.
    split; [|exact IHs].
    cbn [List.filter]; destruct (is_Start o); cbn [length]; lia.
Qed.

Lemma step_handles_ok (w : World) (o : op) (i : nat) (t : task) :
  handles_ok w ->
  status_task (facade w) <> Some i ->
  pool w !! i = Some t ->
  handles_ok (step w o)
  /\ status_task (facade (step w o)) <> Some i
  /\ pool (step w o) !! i = Some t.
Proof.
  intros [Hp Hs] Hne Hi. destruct o; cbn [step].
  - destruct (pool_after_start w) as (Hpool & Hst & Hpw & _).
    pose proof (lookup_lt_Some _ _ _ Hi) as Hlt.
    split; [|split].
    + unfold handles_ok. rewrite Hpw, Hst, Hpool. split; [exact Hp|].
      exists (Task (IntervalTask (status_interval w)) true false).
      rewrite lookup_app_r by lia. rewrite Nat.sub_diag. split; reflexivity.
    + rewrite Hst. intros E. injection E as E. lia.
    + rewrite Hpool. rewrite lookup_app_l by exact Hlt. exact Hi.
  - destruct w as [[m th dt ah da a st pw] si pl q v x wl n].
    cbn [facade power_task status_task pool] in *. subst pw.
    destruct st as [h|];
      cbn [stop pool facade set_pool set_facade set_status_task set_power_task
             status_task power_task].
    + refine (conj (conj eq_refl I) (conj _ _)); [discriminate|].
      rewrite list_lookup_alter_ne by congruence. exact Hi.
    + refine (conj (conj eq_refl I) (conj _ Hi)). discriminate.
Qed.

(** X17. Of the tasks already in the pool, a sequence of [start] and [stop]
    can reach only the one that [status_task] names: every other task stays
    as it is, whatever is called and however often.  A status task whose
    handle a second [start] has overwritten is therefore never asked to
    stop. *)
Theorem run_touches_status_task_only (ops : list op) :
  forall (w : World) (i : nat) (t : task),
    handles_ok w ->
    status_task (facade w) <> Some i ->
    pool w !! i = Some t ->
    handles_ok (run ops w) /\ pool (run ops w) !! i = Some t.
Proof.
  induction ops as [|o ops IH]; intros w i t Hok Hne Hi; [split; assumption|].
  change (run (o :: ops) w) with (run ops (step w o)).
  destruct (step_handles_ok w o i t Hok Hne Hi) as (Hok' & Hne' & Hi').
  exact (IH _ _ _ Hok' Hne' Hi').
Qed.

(** Two calls of [start] in a row: the status task of the first is still
    running after [stop], [start], [stop]. *)
Lemma run_touches_status_task_only_witness :
  pool (run [Stop; Start; Stop] (start (start (Sample.world Sample.charis)))) !! 0%nat
  = Some (Task (IntervalTask 10) true false).
Proof.
  apply (run_touches_status_task_only [Stop; Start; Stop]
           (start (start (Sample.world Sample.charis))) 0%nat
           (Task (IntervalTask 10) true false)).
  - split; [reflexivity|].
    exists (Task (IntervalTask 10) true false). split; reflexivity.
  - discriminate.
  - reflexivity.
Defined.

(** ** Dispatch of the commands *)

(** X18. A [tag] among the keyword arguments of the caller counts for
    nothing: the dispatcher puts its own in its place. *)
Theorem dispatchCommand_overrides_tag (getattr : World -> string -> option attr)
    (tag cmdName : string) (args : list pyval) (kwdargs : gmap string pyval)
    (v : pyval) (w : World) :
  dispatchCommand getattr tag cmdName args (<["tag" := v]> kwdargs) w
  = dispatchCommand getattr tag cmdName args kwdargs w.
Proof.
  unfold dispatchCommand. rewrite !(right_id_L ∅ (∪)). rewrite insert_insert_eq.
  reflexivity.
Qed.

Lemma bind_params_unknown_keyword (formals : list (string * pyval)) :
  forall (args : list pyval) (kw : gmap string pyval) (k : string),
    is_Some (kw !! k) -> ~ In k (map fst formals) ->
    bind_params formals args kw = Raise TypeError.
Proof.
  induction formals as [|[n d] fs IH]; intros args kw k [v Hk] Hnot.
  - destruct args as [|a rest]; cbn [bind_params]; [|reflexivity].
    destruct (map_to_list kw) eqn:E; [|reflexivity].
    apply map_to_list_empty_iff in E. subst kw. rewrite lookup_empty in Hk.
    discriminate Hk.
  - assert (Hn : n <> k) by (intros ->; apply Hnot; left; reflexivity).
    assert (Hfs : ~ In k (map fst fs)) by (intros Hin; apply Hnot; right; exact Hin).
    destruct args as [|a rest]; cbn [bind_params].
    + rewrite (IH [] (delete n kw) k); [reflexivity| |exact Hfs].
      exists v. rewrite lookup_delete_ne by exact Hn. exact Hk.
    + destruct (kw !! n); [reflexivity|].
      rewrite (IH rest kw k); [reflexivity| |exact Hfs]. exists v. exact Hk.
Qed.

(** X19. [kablooie] raises whatever it is given and changes nothing; but
    it has no parameter [tag], so that through the dispatcher, which always
    passes one, the call itself fails and the error is [TypeError], never
    the [CHARISError] of its body. *)
Theorem kablooie_dispatched (tag : string) (args : list pyval)
    (kwdargs : gmap string pyval) (w : World) :
  dispatchCommand getattr tag "kablooie" args kwdargs w = (w, Raise TypeError)
  /\ fst (kablooie args kwdargs w) = w
  /\ (snd (kablooie args kwdargs w) = Raise (CHARISError "KA-BLOOIE!!!")
      \/ snd (kablooie args kwdargs w) = Raise TypeError).
Proof.
  refine (conj _ (conj _ _)).
  - unfold dispatchCommand. change (getattr w "kablooie") with (Some (Method kablooie)).
    cbv beta iota zeta. unfold kablooie.
    rewrite (bind_params_unknown_keyword _ args _ "tag"); [reflexivity| |].
    + rewrite lookup_insert_eq. eexists. reflexivity.
    + cbn. intros [E|[]]. discriminate E.
  - unfold kablooie. destruct (bind_params _ args kwdargs); reflexivity.
  - unfold kablooie.
    assert (Hty : forall fs a k e, bind_params fs a k = Raise e -> e = TypeError).
    { induction fs as [|[n d] fs IH]; intros a k e; destruct a as [|x a];
        cbn [bind_params].
      - destruct (map_to_list k); [discriminate|]. intros E. injection E as <-. reflexivity.
      - intros E. injection E as <-. reflexivity.
      - destruct (bind_params fs [] (delete n k)) as [vs|e'] eqn:Eb; cbn [bind];
          [discriminate|]. intros E. injection E as <-. exact (IH _ _ _ Eb).
      - destruct (k !! n); [intros E; injection E as <-; reflexivity|].
        destruct (bind_params fs a k) as [vs|e'] eqn:Eb; cbn [bind];
          [discriminate|]. intros E. injection E as <-. exact (IH _ _ _ Eb). }
    destruct (bind_params _ args kwdargs) as [vs|e] eqn:Eb; [left; reflexivity|].
    right. cbn [snd]. rewrite (Hty _ _ _ _ Eb). reflexivity.
Qed.

(** X20. [obcp_mode] through the dispatcher, with keyword arguments only:
    when every keyword is one of its parameters the mode of the instance
    becomes the keyword [mode], or [None] when that is left out, and nothing
    else changes; with any other keyword the call fails with [TypeError]
    and the mode stays. *)
Theorem obcp_mode_dispatched (tag : string) (kwdargs : gmap string pyval) (w : World) :
  ((forall k, is_Some (kwdargs !! k) -> k = "motor" \/ k = "mode" \/ k = "tag") ->
   dispatchCommand getattr tag "obcp_mode" [] kwdargs w
   = (set_facade (set_mode (default VNone (kwdargs !! "mode")) (facade w)) w, Ok VNone))
  /\ (forall k, is_Some (kwdargs !! k) -> k <> "motor" -> k <> "mode" -> k <> "tag" ->
      dispatchCommand getattr tag "obcp_mode" [] kwdargs w = (w, Raise TypeError)).
Proof.
  unfold dispatchCommand. change (getattr w "obcp_mode") with (Some (Method obcp_mode)).
  cbv beta iota zeta. rewrite (right_id_L ∅ (∪)). unfold obcp_mode. split.
  - intros Hkeys. cbn [bind_params].
    assert (Hempty : delete "tag" (delete "mode" (delete "motor"
                       (<["tag" := VStr tag]> kwdargs))) = ∅).
    { apply map_empty. intros k.
      destruct (decide (k = "tag")) as [->|Ht]; [apply lookup_delete_eq|].
      rewrite lookup_delete_ne by congruence.
      destruct (decide (k = "mode")) as [->|Hm]; [apply lookup_delete_eq|].
      rewrite lookup_delete_ne by congruence.
      destruct (decide (k = "motor")) as [->|Ho]; [apply lookup_delete_eq|].
      rewrite lookup_delete_ne by congruence.
      rewrite lookup_insert_ne by congruence.
      destruct (kwdargs !! k) as [x|] eqn:Ek; [|reflexivity].
      destruct (Hkeys k (ex_intro _ x Ek)) as [?|[?|?]]; contradiction. }
    rewrite Hempty, map_to_list_empty. cbn [bind].
    rewrite lookup_delete_ne by discriminate. rewrite lookup_insert_ne by discriminate.
    reflexivity.
  - intros k [x Hk] Ho Hm Ht.
    rewrite (bind_params_unknown_keyword _ [] _ k); [reflexivity| |].
    + exists x. rewrite lookup_insert_ne by congruence. exact Hk.
    + cbn. intros [E|[E|[E|[]]]]; congruence.
Qed.

(** The keyword [mode] alone, and a keyword that [obcp_mode] does not
    have. *)
Lemma obcp_mode_dispatched_witness :
  let w := Sample.world Sample.charis in
  mode (facade (fst (dispatchCommand getattr "tag" "obcp_mode" [] {[ "mode" := VStr "spec" ]} w)))
  = VStr "spec"
  /\ dispatchCommand getattr "tag" "obcp_mode" [] {[ "speed" := VInt 3 ]} w
     = (w, Raise TypeError).
Proof.
  intros w. split.
  - rewrite (proj1 (obcp_mode_dispatched "tag" {[ "mode" := VStr "spec" ]} w)).
    + vm_compute. reflexivity.
    + intros k [x Hk]. destruct (decide (k = "mode")) as [->|Hne]; [right; left; reflexivity|].
      rewrite lookup_singleton_ne in Hk by congruence. discriminate Hk.
  - apply (proj2 (obcp_mode_dispatched "tag" {[ "speed" := VInt 3 ]} w) "speed");
      [eexists; apply lookup_singleton_eq | discriminate ..].
Defined.

(** ** The commands that report to the status store *)

Lemma lookup_field1 (a k : string) (x : pyval) :
  ({[ a := x ]} : gmap string pyval) !! k = if String.eqb a k then Some x else None.
Proof.
  destruct (String.eqb_spec a k) as [->|Hne].
  - apply lookup_singleton_eq.
  - apply lookup_singleton_ne. exact Hne.
Qed.

Lemma lookup_field2 (a b k : string) (x y : pyval) :
  (<[ a := x ]> {[ b := y ]} : gmap string pyval) !! k
  = if String.eqb a k then Some x else if String.eqb b k then Some y else None.
Proof.
  destruct (String.eqb_spec a k) as [->|Hne].
  - apply lookup_insert_eq.
  - rewrite lookup_insert_ne by exact Hne. apply lookup_field1.
Qed.

Lemma getval_execOneCmd (tag field actor cmdStr : string) (timelim : float) (w : World) :
  getval tag field (execOneCmd actor cmdStr timelim w) = getval tag field w.
Proof. reflexivity. Qed.

Lemma getval_set_ticks (tag field : string) (n : nat) (w : World) :
  getval tag field (set_ticks n w) = getval tag field w.
Proof. reflexivity. Qed.

Ltac store_step :=
  first
    [ rewrite getval_execOneCmd
    | rewrite getval_set_ticks
    | rewrite getval_setvals_same;
      rewrite ?lookup_field1, ?lookup_field2;
      cbn [String.eqb Ascii.eqb Bool.eqb andb]
    | rewrite getval_setvals_other by (apply subtag_fresh)
    | rewrite getval_setvals_other by (apply not_eq_sym, subtag_fresh) ].

Ltac store := repeat store_step; try reflexivity.

Lemma setvals_setvals (tag : string) (k1 k2 : gmap string pyval) (w : World) :
  setvals tag k2 (setvals tag k1 w) = setvals tag (k2 ∪ k1) w.
Proof.
  unfold setvals, set_vals. cbn [vals facade status_interval pool ev_quit execs wall ticks].
  rewrite lookup_insert_eq. change (default ∅ (Some ?x)) with x.
  rewrite insert_insert_eq. rewrite (assoc_L (∪)). reflexivity.
Qed.

Lemma setvals_moved (tag old : string) (now : float) (w : World) :
  setvals tag {[ "cmd_str" := VStr "Moved! " ]}
    (setvals tag (<[ "task_start" := VFloat now ]> {[ "cmd_str" := VStr old ]}) w)
  = setvals tag (<[ "task_start" := VFloat now ]> {[ "cmd_str" := VStr "Moved! " ]}) w.
Proof.
  rewrite setvals_setvals. f_equal.
Qed.

(** X21. [grism] and [shutter] move nothing: each records the sub-tag and
    the two readings of the clock, leaves [task_error] alone, runs no
    external command and returns [None]; and what [shutter] leaves behind
    does not depend on the position it was given. *)
Theorem grism_shutter_report (tag : string) (pos : option string) (w : World) :
  (reports_completion tag w (fst (grism tag pos w))
   /\ execs (fst (grism tag pos w)) = execs w
   /\ snd (grism tag pos w) = Ok VNone
   /\ getval (tag +:+ ".1") "cmd_str" (fst (grism tag pos w)) = Some (VStr "Done."))
  /\ (reports_completion tag w (fst (shutter tag pos w))
      /\ execs (fst (shutter tag pos w)) = execs w
      /\ snd (shutter tag pos w) = Ok VNone
      /\ getval (tag +:+ ".1") "cmd_str" (fst (shutter tag pos w)) = Some (VStr "Moved! ")
      /\ shutter tag pos w = shutter tag None w).
Proof.
  split.
  - unfold grism, time_time. cbn [fst snd].
    refine (conj _ (conj eq_refl (conj eq_refl _))); [|store].
    unfold reports_completion. repeat split; store.
  - unfold shutter, time_time. cbn [fst snd].
    refine (conj _ (conj eq_refl (conj eq_refl (conj _ _)))); [|store|].
    + unfold reports_completion. repeat split; store.
    + rewrite !setvals_moved. reflexivity.
Qed.

Lemma format_f1_90 : format_f1 90 = "90.0".
Proof. vm_compute. reflexivity. Qed.

(** X22. [filter] with a name runs one command of the [charis] actor with a
    time limit of ninety seconds and reports as a finished command does;
    without a name it fails with [TypeError] once the start has been
    recorded: the status store then shows a command that began and never
    ended, and nothing has been run. *)
Theorem filter_report (tag : string) (w : World) :
  (forall name : string,
     let r := filter tag (Some name) w in
     snd r = Ok VNone
     /\ reports_completion tag w (fst r)
     /\ execs (fst r)
        = execs w ++ ["oneCmd.py charis --level=i --timelim=90.0 filter " +:+ name])
  /\ (let r := filter tag None w in
      snd r = Raise TypeError
      /\ getval tag "subpath" (fst r) = Some (VStr (tag +:+ ".1"))
      /\ getval (tag +:+ ".1") "task_start" (fst r) = Some (VFloat (wall w (ticks w)))
      /\ getval (tag +:+ ".1") "cmd_str" (fst r) = Some (VStr "moving filter to None")
      /\ getval (tag +:+ ".1") "task_end" (fst r) = getval (tag +:+ ".1") "task_end" w
      /\ execs (fst r) = execs w).
Proof.
  split.
  - intros name. cbv zeta. unfold filter, time_time. cbn [fst snd].
    refine (conj eq_refl (conj _ _)).
    + unfold reports_completion. repeat split; store.
    + unfold execOneCmd, execCmd. rewrite format_f1_90. reflexivity.
  - cbv zeta. unfold filter, time_time. cbn [fst snd].
    refine (conj eq_refl (conj _ (conj _ (conj _ (conj _ eq_refl))))); store.
Qed.

(** X23. A [ramp] that is not rejected, with numbers that convert to
    float: it runs one command of the [hx] actor, whose time limit is one
    and a half seconds for each reset and read (or for each reset, plus the
    exposure time) plus twenty, and reports as a finished command does. *)
Theorem ramp_accepted (tag exptype : string) (exptime : float) (nreset nread : Z)
    (target : pyval) (w : World) (n : float) :
  (0 <? nread) && (0 <? exptime)%float = false ->
  int_to_float (if 0 <? nread then nread + nreset else nreset) = Ok n ->
  let subtag := tag +:+ ".1" in
  let readArg :=
    if 0 <? nread then "nread=" +:+ str_of_Z nread else "itime=" +:+ format_f1 exptime in
  let timelim :=
    if 0 <? nread then (n * 1.5 + 20)%float else (n * 1.5 + exptime + 20)%float in
  let r := ramp tag exptype exptime nreset nread target w in
  snd r = Ok VNone
  /\ reports_completion tag w (fst r)
  /\ getval subtag "cmd_str" (fst r) = Some (VStr "Done with ramp")
  /\ execs (fst r)
     = execs w ++ ["oneCmd.py hx --level=i --timelim=" +:+ format_f1 timelim
                     +:+ " ramp nreset=" +:+ str_of_Z nreset +:+ " " +:+ readArg].
Proof.
  intros Hc Hconv. cbv zeta. unfold ramp. cbv zeta. rewrite Hc.
  destruct (0 <? nread); cbv iota in Hconv |- *; rewrite Hconv; cbn [bind];
    unfold time_time; cbn [fst snd];
    (refine (conj eq_refl (conj _ (conj _ eq_refl)));
     [unfold reports_completion; repeat split; store | store]).
Qed.

(** Two reads after one reset, no exposure time: a limit of 24.5 s. *)
Lemma ramp_accepted_witness :
  let w := Sample.world Sample.charis in
  let r := ramp "tag" "TEST" 0 1 2 VNone w in
  snd r = Ok VNone
  /\ execs (fst r) = ["oneCmd.py hx --level=i --timelim=24.5 ramp nreset=1 nread=2"]
  /\ getval "tag.1" "task_end" (fst r) = Some (VFloat 1474081446).
Proof.
  intros w r.
  destruct (ramp_accepted "tag" "TEST" 0 1 2 VNone w 3 eq_refl eq_refl)
    as (Hr & (_ & _ & He & _) & _ & Hx).
  split; [exact Hr|]. split.
  - unfold r. rewrite Hx. vm_compute. reflexivity.
  - unfold r. etransitivity; [exact He|]. vm_compute. reflexivity.
Defined.

(** X24. A [ramp] whose count of resets and reads is too large for a float
    fails with [OverflowError] once the start has been recorded: nothing is
    run, and no end is reported. *)
Theorem ramp_overflow (tag exptype : string) (exptime : float) (nreset nread : Z)
    (target : pyval) (w : World) (e : exn) :
  (0 <? nread) && (0 <? exptime)%float = false ->
  int_to_float (if 0 <? nread then nread + nreset else nreset) = Raise e ->
  let subtag := tag +:+ ".1" in
  let r := ramp tag exptype exptime nreset nread target w in
  e = OverflowError
  /\ snd r = Raise OverflowError
  /\ getval subtag "task_start" (fst r) = Some (VFloat (wall w (ticks w)))
  /\ getval subtag "task_end" (fst r) = getval subtag "task_end" w
  /\ execs (fst r) = execs w.
Proof.
  intros Hc Hconv.
  assert (He : e = OverflowError).
  { unfold int_to_float in Hconv.
    destruct (is_infinity _); [|discriminate Hconv]. injection Hconv as <-. reflexivity. }
  subst e. cbv zeta. unfold ramp. cbv zeta. rewrite Hc.
  destruct (0 <? nread); cbv iota in Hconv |- *; rewrite Hconv; cbn [bind];
    unfold time_time; cbn [fst snd];
    (refine (conj eq_refl (conj eq_refl (conj _ (conj _ eq_refl)))); store).
Qed.

(** A count of resets of 2^1024. *)
Lemma ramp_overflow_witness :
  let w := Sample.world Sample.charis in
  let r := ramp "tag" "TEST" 0 (2 ^ 1024) 0 VNone w in
  snd r = Raise OverflowError
  /\ getval "tag.1" "task_end" (fst r) = None
  /\ execs (fst r) = [].
Proof.
  intros w r.
  assert (Hconv : int_to_float (if 0 <? 0 then 0 + 2 ^ 1024 else 2 ^ 1024)
                  = Raise OverflowError) by (vm_compute; reflexivity).
  destruct (ramp_overflow "tag" "TEST" 0 (2 ^ 1024) 0 VNone w OverflowError eq_refl Hconv)
    as (_ & Hr & _ & He & Hx).
  split; [exact Hr|]. split; [|exact Hx].
  etransitivity; [exact He|]. vm_compute. reflexivity.
Defined.
